(** * rpi_monitor.py: a shallow embedding of the remote health monitor

    The development follows [src/rpi_monitor.py].  Module [Py] models the
    Python built-ins the script calls ([str.strip], [str.split], [int],
    [float], true division, dictionaries, exceptions); module [Monitor]
    embeds the methods of class [RPiMonitor] one definition per method,
    with the same names; the theorems about them come last.

    Conventions.
    - A Python [str] is a Rocq [string]; a character stands for the code
      point of the same number, so the model covers texts over Latin-1.
    - A Python [float] is a binary64 value ([PrimFloat.float]); decimal
      literals and integer quotients are rounded to nearest, ties to even,
      as CPython does.
    - A Python [int] is a [Z].
    - Effects are explicit: a computation yields the list of events it
      produced (log records, files opened and written, sleeps) and either
      a value or the exception it raised.
    - What lies outside the script is a parameter: the outcome of each
      [subprocess.run], the clock, the outcome of opening the snapshot
      file, of dumping into it and of each sleep are fields of a [world],
      one per cycle.  Paths are those of a POSIX system.  [__init__] (the
      log directory and the logging set-up) and [main] (the command line)
      are not embedded; the attribute [log_dir] that [__init__] sets is
      the constant [log_dir]. *)

From Stdlib Require Import ZArith List String Ascii Bool Lia.
From Stdlib Require Import Floats Uint63.
Import ListNotations.
Open Scope string_scope.
Open Scope Z_scope.

(* ================================================================= *)
(** ** Python built-ins *)

Module Py.

(** *** Exceptions and results *)

Inductive exn : Type :=
| ValueError
| IndexError
| KeyError
| TypeError
| AttributeError
| ZeroDivisionError
| OverflowError
| OSError
| TimeoutExpired        (* subprocess.TimeoutExpired *)
| KeyboardInterrupt.

(** [except Exception] catches every class above but [KeyboardInterrupt],
    which derives from [BaseException] only. *)
Definition is_Exception (e : exn) : bool :=
  match e with
  | KeyboardInterrupt => false
  | _ => true
  end.

Definition exn_eqb (a b : exn) : bool :=
  match a, b with
  | ValueError, ValueError | IndexError, IndexError | KeyError, KeyError
  | TypeError, TypeError | AttributeError, AttributeError
  | ZeroDivisionError, ZeroDivisionError | OverflowError, OverflowError
  | OSError, OSError | TimeoutExpired, TimeoutExpired
  | KeyboardInterrupt, KeyboardInterrupt => true
  | _, _ => false
  end.

Inductive result (A : Type) : Type :=
| Ok (a : A)
| Raise (e : exn).
Arguments Ok {A} a.
Arguments Raise {A} e.

(** *** Characters *)

Definition code (c : ascii) : N := N_of_ascii c.

(** [str.isspace] on one code point below 256: the characters removed by
    [str.strip()] and separating the fields of [str.split()]. *)
Definition isspace (c : ascii) : bool :=
  let n := code c in
  ((9 <=? n) && (n <=? 13) || (28 <=? n) && (n <=? 32)
   || (n =? 133) || (n =? 160))%N.

(** White space accepted around a number by [int] and [float]: CPython
    maps non-ASCII white space to a blank and then skips the C locale's
    white space, so the separators 28..31 are not skipped. *)
Definition isspace_numeric (c : ascii) : bool :=
  let n := code c in
  ((9 <=? n) && (n <=? 13) || (n =? 32) || (n =? 133) || (n =? 160))%N.

Definition digit_of (c : ascii) : option Z :=
  let n := code c in
  if ((48 <=? n) && (n <=? 57))%N then Some (Z.of_N n - 48) else None.

Definition is_digit (c : ascii) : bool :=
  match digit_of c with Some _ => true | None => false end.

Definition lower (c : ascii) : ascii :=
  let n := code c in
  if ((65 <=? n) && (n <=? 90))%N then ascii_of_N (n + 32) else c.

Definition nl : ascii := "010"%char.
Definition dquote : ascii := "034"%char.

(** *** Strings *)

Definition is_empty (s : string) : bool :=
  match s with EmptyString => true | String _ _ => false end.

Fixpoint lstrip_by (p : ascii -> bool) (s : string) : string :=
  match s with
  | EmptyString => EmptyString
  | String c s' => if p c then lstrip_by p s' else s
  end.

Fixpoint rstrip_by (p : ascii -> bool) (s : string) : string :=
  match s with
  | EmptyString => EmptyString
  | String c s' =>
      let r := rstrip_by p s' in
      if p c && is_empty r then EmptyString else String c r
  end.

Definition strip_by (p : ascii -> bool) (s : string) : string :=
  rstrip_by p (lstrip_by p s).

(** [s.strip()] *)
Definition strip (s : string) : string := strip_by isspace s.

(** [s.strip(c)] and [s.rstrip(c)] for a one-character argument. *)
Definition strip_char (c : ascii) (s : string) : string :=
  strip_by (Ascii.eqb c) s.
Definition rstrip_char (c : ascii) (s : string) : string :=
  rstrip_by (Ascii.eqb c) s.

(** [s.split(sep)] for a one-character separator: never empty. *)
Fixpoint split_on (sep : ascii) (s : string) : list string :=
  match s with
  | EmptyString => [EmptyString]
  | String c s' =>
      if Ascii.eqb c sep then EmptyString :: split_on sep s'
      else match split_on sep s' with
           | t :: ts => String c t :: ts
           | [] => [String c EmptyString]
           end
  end.

(** [s.split()]: the maximal runs of characters that are not white space. *)
Fixpoint split (s : string) : list string :=
  match s with
  | EmptyString => []
  | String c s' =>
      if isspace c then split s'
      else match s' with
           | EmptyString => [String c EmptyString]
           | String c' _ =>
               if isspace c' then String c EmptyString :: split s'
               else match split s' with
                    | t :: ts => String c t :: ts
                    | [] => [String c EmptyString]
                    end
           end
  end.

(** [s.startswith(p)] *)
Definition startswith (p s : string) : bool := String.prefix p s.

(** [sub in s] *)
Fixpoint contains (sub s : string) : bool :=
  String.prefix sub s ||
  match s with
  | EmptyString => false
  | String _ s' => contains sub s'
  end.

Fixpoint drop_prefix (p s : string) : option string :=
  match p, s with
  | EmptyString, _ => Some s
  | String a p', String b s' =>
      if Ascii.eqb a b then drop_prefix p' s' else None
  | String _ _, EmptyString => None
  end.

Fixpoint replace_from (fuel : nat) (old new s : string) : string :=
  match fuel with
  | O => s
  | S fuel' =>
      match drop_prefix old s with
      | Some rest => new ++ replace_from fuel' old new rest
      | None =>
          match s with
          | EmptyString => EmptyString
          | String c s' => String c (replace_from fuel' old new s')
          end
      end
  end.

Fixpoint intersperse (new s : string) : string :=
  match s with
  | EmptyString => new
  | String c s' => new ++ String c (intersperse new s')
  end.

(** [s.replace(old, new)]: every occurrence, leftmost first, not
    overlapping; an empty [old] matches between all characters. *)
Definition replace (old new s : string) : string :=
  if is_empty old then intersperse new s
  else replace_from (S (String.length s)) old new s.

(** *** pathlib *)

(** A [PurePosixPath]: its root ([/], [//] or none) and the parts after
    it.  Parsing a string drops the empty components and the components
    [.]; two leading slashes, and only two, are a root of their own. *)
Record PurePath : Type := {
  root : string;
  parts : list string
}.

Definition path_parts (s : string) : list string :=
  filter (fun x => negb (is_empty x) && negb (String.eqb x "."))
    (split_on "/" s).

Definition path_root (s : string) : string :=
  if startswith "//" s && negb (startswith "///" s) then "//"
  else if startswith "/" s then "/"
  else "".

(** [Path(s)] *)
Definition Path (s : string) : PurePath :=
  {| root := path_root s; parts := path_parts s |}.

(** [p / name]: a rooted [name] replaces [p]. *)
Definition truediv (p : PurePath) (name : string) : PurePath :=
  let q := Path name in
  if is_empty (root q)
  then {| root := root p; parts := (parts p ++ parts q)%list |}
  else q.

(** [str(p)], which is also what [open] and an f-string make of [p]. *)
Definition fspath (p : PurePath) : string :=
  match root p, parts p with
  | EmptyString, [] => "."
  | r, ps => r ++ String.concat "/" ps
  end.

(** *** Sequences *)

(** [xs[i]] for [i >= 0]. *)
Definition getitem {A : Type} (xs : list A) (i : nat) : result A :=
  match nth_error xs i with
  | Some x => Ok x
  | None => Raise IndexError
  end.

(** [len(xs)] *)
Definition len {A : Type} (xs : list A) : Z := Z.of_nat (List.length xs).

(** *** int(str) *)

(** Digits after the first one: single underscores may separate them. *)
Fixpoint digits_from (acc : Z) (after_underscore : bool) (s : string)
  : option Z :=
  match s with
  | EmptyString => if after_underscore then None else Some acc
  | String c s' =>
      if Ascii.eqb c "_"
      then if after_underscore then None else digits_from acc true s'
      else match digit_of c with
           | Some d => digits_from (10 * acc + d) false s'
           | None => None
           end
  end.

Definition digits (s : string) : option Z :=
  match s with
  | EmptyString => None
  | String c s' =>
      match digit_of c with
      | Some d => digits_from d false s'
      | None => None
      end
  end.

Definition split_sign (s : string) : bool * string :=
  match s with
  | String "-" s' => (true, s')
  | String "+" s' => (false, s')
  | _ => (false, s)
  end.

(** [int(s)] in base ten.  (The limit CPython 3.11 puts on the number of
    digits, 4300 by default, is not modelled.) *)
Definition int (s : string) : result Z :=
  let (neg, body) := split_sign (strip_by isspace_numeric s) in
  match digits body with
  | Some n => Ok (if neg then - n else n)
  | None => Raise ValueError
  end.

(** *** Binary64 rounding *)

(** [n / d] rounded to an integer, ties to even ([0 <= n], [0 < d]). *)
Definition round_half_even (n d : Z) : Z :=
  let q := n / d in
  match (2 * (n mod d) ?= d) with
  | Lt => q
  | Gt => q + 1
  | Eq => if Z.even q then q else q + 1
  end.

(** The binary64 value nearest to [n / d] ([0 <= n], [0 < d]), ties to
    even, with the given sign; subnormal when small, an infinity when the
    rounded value exceeds the largest finite one. *)
Definition binary64_of_ratio (neg : bool) (n d : Z) : float :=
  let sgn (f : float) := if neg then PrimFloat.opp f else f in
  if n =? 0 then sgn PrimFloat.zero else
  let k := Z.log2 n - Z.log2 d in
  let fl := if d * 2 ^ (Z.max 0 k) <=? n * 2 ^ (Z.max 0 (- k))
            then k else k - 1 in
  let e := Z.max (fl - 52) (-1074) in
  let m := round_half_even (n * 2 ^ (Z.max 0 (- e))) (d * 2 ^ (Z.max 0 e)) in
  sgn (Z.ldexp (PrimFloat.of_uint63 (Uint63.of_Z m)) e).

(** [a / b] on ints (true division): the correctly rounded quotient. *)
Definition int_truediv (a b : Z) : result float :=
  if b =? 0 then Raise ZeroDivisionError
  else
    let q := binary64_of_ratio (xorb (a <? 0) (b <? 0)) (Z.abs a) (Z.abs b) in
    if PrimFloat.is_infinity q then Raise OverflowError else Ok q.

(** *** float(str) *)

(** Underscores are dropped when they stand between two digits and are
    an error anywhere else. *)
Fixpoint drop_underscores (prev : option ascii) (s : string)
  : option string :=
  match s with
  | EmptyString =>
      match prev with
      | Some "_"%char => None
      | _ => Some EmptyString
      end
  | String c s' =>
      if Ascii.eqb c "_" then
        match prev with
        | Some p => if is_digit p then drop_underscores (Some c) s' else None
        | None => None
        end
      else
        let ok := match prev with
                  | Some "_"%char => is_digit c
                  | _ => true
                  end in
        if ok then option_map (String c) (drop_underscores (Some c) s')
        else None
  end.

(** The longest prefix of decimal digits: its value, its length, the rest. *)
Fixpoint take_digits (acc : Z) (count : nat) (s : string)
  : Z * nat * string :=
  match s with
  | String c s' =>
      match digit_of c with
      | Some d => take_digits (10 * acc + d) (S count) s'
      | None => (acc, count, s)
      end
  | EmptyString => (acc, count, s)
  end.

(** An exponent part [e], [e+] or [e-] followed by digits to the end. *)
Definition exponent (s : string) : option Z :=
  match s with
  | EmptyString => Some 0
  | String c s' =>
      if Ascii.eqb (lower c) "e" then
        let (neg, ds) := split_sign s' in
        match take_digits 0 0 ds with
        | (_, O, _) => None
        | (x, S _, EmptyString) => Some (if neg then - x else x)
        | (_, S _, String _ _) => None
        end
      else None
  end.

(** A decimal literal without sign: digits, an optional point and more
    digits, at least one digit in all, an optional exponent. *)
Definition decimal (neg : bool) (s : string) : option float :=
  let '(ip, ni, s1) := take_digits 0 0 s in
  let '(m, nf, s2) :=
    match s1 with
    | String "." s1' => take_digits ip 0 s1'
    | _ => (ip, O, s1)
    end in
  match (ni + nf)%nat with
  | O => None
  | S _ =>
      match exponent s2 with
      | Some x =>
          let p := x - Z.of_nat nf in
          Some (if 0 <=? p then binary64_of_ratio neg (m * 10 ^ p) 1
                else binary64_of_ratio neg m (10 ^ (- p)))
      | None => None
      end
  end.

Fixpoint lower_string (s : string) : string :=
  match s with
  | EmptyString => EmptyString
  | String c s' => String (lower c) (lower_string s')
  end.

(** [float(s)]: a decimal literal, [inf], [infinity] or [nan] in any
    letter case, with an optional sign and surrounding white space. *)
Definition float (s : string) : result PrimFloat.float :=
  match drop_underscores None (strip_by isspace_numeric s) with
  | None => Raise ValueError
  | Some t =>
      let (neg, body) := split_sign t in
      let sgn (f : PrimFloat.float) := if neg then PrimFloat.opp f else f in
      let low := lower_string body in
      if String.eqb low "inf" || String.eqb low "infinity"
      then Ok (sgn PrimFloat.infinity)
      else if String.eqb low "nan" then Ok (sgn PrimFloat.nan)
      else match decimal neg body with
           | Some f => Ok f
           | None => Raise ValueError
           end
  end.

(** *** Values and dictionaries *)

#[local] Set Warnings "-register-all".

(** What a snapshot holds, and what [json.dump] accepts. *)
Inductive value : Type :=
| VStr (s : string)
| VInt (n : Z)
| VFloat (f : PrimFloat.float)
| VBool (b : bool)
| VList (xs : list value)
| VDict (items : list (string * value)).

(** A [dict] with string keys, in insertion order. *)
Definition dict : Type := list (string * value).

(** [d.get(k)] *)
Fixpoint get (k : string) (d : dict) : option value :=
  match d with
  | [] => None
  | (k', v) :: d' => if String.eqb k k' then Some v else get k d'
  end.

(** [d[k] = v]: a present key keeps its place. *)
Fixpoint setitem (k : string) (v : value) (d : dict) : dict :=
  match d with
  | [] => [(k, v)]
  | (k', v') :: d' =>
      if String.eqb k k' then (k, v) :: d' else (k', v') :: setitem k v d'
  end.

Definition keys (d : dict) : list string := List.map fst d.

(** [k in x] *)
Definition contains_key (k : string) (x : value) : result bool :=
  match x with
  | VDict d => Ok (match get k d with Some _ => true | None => false end)
  | VStr s => Ok (contains k s)
  | VList xs =>
      Ok (existsb (fun v => match v with
                            | VStr s => String.eqb s k
                            | _ => false
                            end) xs)
  | _ => Raise TypeError
  end.

(** [x.get(k, default)] *)
Definition get_default (k : string) (default : value) (x : value)
  : result value :=
  match x with
  | VDict d => Ok (match get k d with Some v => v | None => default end)
  | _ => Raise AttributeError
  end.

(** [x[k]] *)
Definition subscript (x : value) (k : string) : result value :=
  match x with
  | VDict d => match get k d with Some v => Ok v | None => Raise KeyError end
  | _ => Raise TypeError
  end.

(** [x > n] for a non-negative int literal [n] that binary64 holds
    exactly. *)
Definition gt_int (x : value) (n : Z) : result bool :=
  match x with
  | VFloat f => Ok (PrimFloat.ltb (PrimFloat.of_uint63 (Uint63.of_Z n)) f)
  | VInt i => Ok (n <? i)
  | VBool b => Ok (n <? (if b then 1 else 0))
  | _ => Raise TypeError
  end.

End Py.

(* ================================================================= *)
(** ** Events, the outside world and the effect monad *)

Module Monitor.
Import Py.

Inductive level : Type := INFO | WARNING | ERROR.

(** One constructor per log call of the script, holding the values its
    f-string interpolates. *)
Inductive message : Type :=
| CommandFailed (command stderr : string)
| CommandTimedOut (command : string)
| SSHConnectionFailed (e : exn)
| StartingHealthCheck (hostname : string)
| MetricsSaved (filename : string)
| FailedToSaveMetrics (e : exn)
| HighCPUTemperature (temp : value)
| HighMemoryUsage (mem_usage : value)
| MonitoringCycleFailed (e : exn)
| CycleFailedWillRetry
| StartingContinuousMonitoring (interval : Z)
| MonitoringStoppedByUser
| UnexpectedError (e : exn).

(** What a run leaves behind.  [Opened f]: [open(f, 'w')] returned, so
    the file [f] exists and is empty, whatever it held before.
    [Wrote f d]: [json.dump] put the document [d] into [f] and the file
    was closed. *)
Inductive event : Type :=
| Logged (lvl : level) (msg : message)
| Opened (filename : string)
| Wrote (filename : string) (document : value)
| Slept (seconds : Z).

(** [subprocess.CompletedProcess] *)
Record CompletedProcess : Type := {
  returncode : Z;
  stdout : string;
  stderr : string
}.

(** What one monitoring cycle meets outside the script: the outcome of
    every [subprocess.run] by its argument vector, the clock readings, the
    outcome of [open(filename, 'w')] ([None]: opened), the outcome of
    [json.dump] into the open file and of closing it on leaving the
    [with] block ([None]: written and closed), and the outcome of the two
    calls of [time.sleep] a loop iteration can make ([None]: slept). *)
Record world : Type := {
  subprocess_run : list string -> result CompletedProcess;
  now_isoformat : string;
  now_strftime : string;
  open_w : string -> option exn;
  json_dump : string -> value -> option exn;
  sleep_in_try : option exn;
  sleep_in_handler : option exn
}.

Record RPiMonitor : Type := {
  hostname : string;
  username : string;
  key_path : option string
}.

(** [self.log_dir], which [__init__] sets to [Path('./rpi_logs')]. *)
Definition log_dir : PurePath := Path "./rpi_logs".

(** A computation: the events it produced, in order, and how it ended. *)
Definition M (A : Type) : Type := list event * result A.

Definition ret {A : Type} (a : A) : M A := ([], Ok a).

Definition raise {A : Type} (e : exn) : M A := ([], Raise e).

Definition lift {A : Type} (r : result A) : M A := ([], r).

Definition bind {A B : Type} (m : M A) (k : A -> M B) : M B :=
  match m with
  | (evs, Ok a) => let (evs', r) := k a in ((evs ++ evs')%list, r)
  | (evs, Raise e) => (evs, Raise e)
  end.

Definition emit (ev : event) : M unit := ([ev], Ok tt).

Definition log (lvl : level) (msg : message) : M unit := emit (Logged lvl msg).

(** The clauses of a [try] statement, tried in order. *)
Fixpoint dispatch {A : Type}
  (clauses : list ((exn -> bool) * (exn -> M A))) (e : exn) : M A :=
  match clauses with
  | [] => raise e
  | (catches, handler) :: rest =>
      if catches e then handler e else dispatch rest e
  end.

Definition try_except {A : Type} (body : M A)
  (clauses : list ((exn -> bool) * (exn -> M A))) : M A :=
  match body with
  | (evs, Ok a) => (evs, Ok a)
  | (evs, Raise e) => let (evs', r) := dispatch clauses e in ((evs ++ evs')%list, r)
  end.

Declare Scope py_scope.
Delimit Scope py_scope with py.
Notation "x <- m ;; k" := (bind m (fun x => k))
  (at level 61, m at next level, right associativity) : py_scope.
Notation "m ;; k" := (bind m (fun _ => k))
  (at level 61, right associativity) : py_scope.
Open Scope py_scope.

(** [time.sleep(secs)]: a negative length is a [ValueError]; otherwise the
    world tells whether the sleep completes or is cut short. *)
Definition time_sleep (outcome : option exn) (secs : Z) : M unit :=
  if secs <? 0 then raise ValueError
  else match outcome with
       | None => emit (Slept secs)
       | Some e => raise e
       end.

(* ================================================================= *)
(** ** class RPiMonitor *)

Section Methods.

Variable self : RPiMonitor.
Variable w : world.

(** [_run_remote_command]: run [command] over ssh; the trimmed standard
    output, or [None] after logging the failure. *)
Definition _run_remote_command (command : string) : M (option string) :=
  try_except
    (let ssh_cmd :=
       ["ssh"; "-o"; "ConnectTimeout=10"; "-o"; "StrictHostKeyChecking=no"] in
     let ssh_cmd :=
       match key_path self with
       | Some (String _ _ as key) => (ssh_cmd ++ ["-i"; key])%list
       | _ => ssh_cmd
       end in
     let ssh_cmd := (ssh_cmd ++ [(username self ++ "@" ++ hostname self)%string])%list in
     let ssh_cmd := (ssh_cmd ++ [command])%list in
     result <- lift (subprocess_run w ssh_cmd) ;;
     if returncode result =? 0 then
       ret (Some (strip (stdout result)))
     else
       log ERROR (CommandFailed command (stderr result)) ;;
       ret None)
    [ (exn_eqb TimeoutExpired,
       fun _ => log ERROR (CommandTimedOut command) ;; ret None);
      (is_Exception,
       fun e => log ERROR (SSHConnectionFailed e) ;; ret None) ].

(** [get_system_info] *)
Definition get_system_info : M dict :=
  let info : dict := [] in
  uptime <- _run_remote_command "uptime" ;;
  let info :=
    match uptime with
    | Some (String _ _ as uptime) => setitem "uptime" (VStr uptime) info
    | _ => info
    end in
  kernel <- _run_remote_command "uname -r" ;;
  let info :=
    match kernel with
    | Some (String _ _ as kernel) => setitem "kernel_version" (VStr kernel) info
    | _ => info
    end in
  os_version <- _run_remote_command "cat /etc/os-release | grep PRETTY_NAME" ;;
  info <- match os_version with
          | Some (String _ _ as os_version) =>
              field <- lift (getitem (split_on "=" os_version) 1) ;;
              ret (setitem "os_version" (VStr (strip_char dquote field)) info)
          | _ => ret info
          end ;;
  ret info.

(** [get_cpu_metrics] *)
Definition get_cpu_metrics : M dict :=
  let metrics : dict := [] in
  cpu_usage <- _run_remote_command
    "top -bn1 | grep 'Cpu(s)' | awk '{print $2}' | cut -d'%' -f1" ;;
  metrics <- match cpu_usage with
             | Some (String _ _ as cpu_usage) =>
                 try_except
                   (x <- lift (float cpu_usage) ;;
                    ret (setitem "cpu_usage_percent" (VFloat x) metrics))
                   [ (exn_eqb ValueError, fun _ => ret metrics) ]
             | _ => ret metrics
             end ;;
  load_avg <- _run_remote_command "cat /proc/loadavg" ;;
  metrics <- match load_avg with
             | Some (String _ _ as load_avg) =>
                 let loads := firstn 3 (split load_avg) in
                 l0 <- lift (getitem loads 0) ;;
                 m1 <- lift (float l0) ;;
                 l1 <- lift (getitem loads 1) ;;
                 m5 <- lift (float l1) ;;
                 l2 <- lift (getitem loads 2) ;;
                 m15 <- lift (float l2) ;;
                 ret (setitem "load_average"
                        (VDict [("1min", VFloat m1);
                                ("5min", VFloat m5);
                                ("15min", VFloat m15)])
                        metrics)
             | _ => ret metrics
             end ;;
  temp <- _run_remote_command "vcgencmd measure_temp" ;;
  metrics <- match temp with
             | Some (String _ _ as temp) =>
                 try_except
                   (let temp_val := replace "'C" "" (replace "temp=" "" temp) in
                    x <- lift (float temp_val) ;;
                    ret (setitem "cpu_temperature_c" (VFloat x) metrics))
                   [ (exn_eqb ValueError, fun _ => ret metrics) ]
             | _ => ret metrics
             end ;;
  freq <- _run_remote_command "vcgencmd measure_clock arm" ;;
  metrics <- match freq with
             | Some (String _ _ as freq) =>
                 try_except
                   (freq_val <- lift (getitem (split_on "=" freq) 1) ;;
                    x <- lift (int freq_val) ;;
                    ret (setitem "cpu_frequency_hz" (VInt x) metrics))
                   [ (fun e => exn_eqb ValueError e || exn_eqb IndexError e,
                      fun _ => ret metrics) ]
             | _ => ret metrics
             end ;;
  ret metrics.

(** [get_memory_metrics], first block ([# Memory usage]): the [free -m]
    probe and the record built from its second line. *)
Definition memory_usage (metrics : dict) : M dict :=
  mem_info <- _run_remote_command "free -m" ;;
  match mem_info with
  | Some (String _ _ as mem_info) =>
      let lines := split_on nl mem_info in
      if len lines >=? 2 then
        line <- lift (getitem lines 1) ;;
        let mem_line := split line in
        f1 <- lift (getitem mem_line 1) ;;
        total_mb <- lift (int f1) ;;
        f2 <- lift (getitem mem_line 2) ;;
        used_mb <- lift (int f2) ;;
        f3 <- lift (getitem mem_line 3) ;;
        free_mb <- lift (int f3) ;;
        available_mb <-
          (if len mem_line >? 6
           then f6 <- lift (getitem mem_line 6) ;; lift (int f6)
           else f3 <- lift (getitem mem_line 3) ;; lift (int f3)) ;;
        let memory : dict :=
          [("total_mb", VInt total_mb);
           ("used_mb", VInt used_mb);
           ("free_mb", VInt free_mb);
           ("available_mb", VInt available_mb)] in
        ratio <- lift (int_truediv used_mb total_mb) ;;
        let memory :=
          setitem "usage_percent" (VFloat (PrimFloat.mul ratio 100)) memory in
        ret (setitem "memory" (VDict memory) metrics)
      else ret metrics
  | _ => ret metrics
  end.

(** [get_memory_metrics], second block ([# Swap usage]): the [swapon]
    probe and the record built from its first line. *)
Definition swap_usage (metrics : dict) : M dict :=
  swap_info <- _run_remote_command "swapon --show --noheadings" ;;
  match swap_info with
  | Some (String _ _ as swap_info) =>
      let swap_lines := split_on nl (strip swap_info) in
      match swap_lines with
      | (String _ _ as first) :: _ =>
          let swap_parts := split first in
          if len swap_parts >=? 4 then
            size <- lift (getitem swap_parts 1) ;;
            used <- lift (getitem swap_parts 2) ;;
            f4 <- lift (getitem swap_parts 4) ;;
            pct <- lift (float (rstrip_char "%" f4)) ;;
            ret (setitem "swap"
                   (VDict [("size", VStr size);
                           ("used", VStr used);
                           ("usage_percent", VFloat pct)])
                   metrics)
          else ret metrics
      | _ => ret metrics
      end
  | _ => ret metrics
  end.

(** [get_memory_metrics]: the two blocks in sequence on one dictionary. *)
Definition get_memory_metrics : M dict :=
  let metrics : dict := [] in
  metrics <- memory_usage metrics ;;
  metrics <- swap_usage metrics ;;
  ret metrics.

(** [get_disk_metrics] *)
Definition get_disk_metrics : M dict :=
  let metrics : dict := [] in
  disk_usage <- _run_remote_command "df -h" ;;
  let metrics :=
    match disk_usage with
    | Some (String _ _ as disk_usage) =>
        let lines := tl (split_on nl disk_usage) in
        let disks :=
          fold_left
            (fun disks line =>
               (* [len(parts) >= 6] guards the six subscripts *)
               match split line with
               | p0 :: p1 :: p2 :: p3 :: p4 :: p5 :: _ =>
                   if startswith "/dev/" p0 then
                     (disks ++
                      [VDict [("device", VStr p0);
                              ("size", VStr p1);
                              ("used", VStr p2);
                              ("available", VStr p3);
                              ("usage_percent", VStr (rstrip_char "%" p4));
                              ("mount_point", VStr p5)]])%list
                   else disks
               | _ => disks
               end)
            lines [] in
        setitem "disk_usage" (VList disks) metrics
    | _ => metrics
    end in
  iostat <- _run_remote_command "iostat -d 1 2 | tail -n +4" ;;
  let metrics :=
    match iostat with
    | Some (String _ _ as iostat) => setitem "disk_io" (VStr iostat) metrics
    | _ => metrics
    end in
  ret metrics.

(** [get_network_metrics] *)
Definition get_network_metrics : M dict :=
  let metrics : dict := [] in
  interfaces <- _run_remote_command "ip addr show" ;;
  let metrics :=
    match interfaces with
    | Some (String _ _ as interfaces) =>
        setitem "network_interfaces" (VStr interfaces) metrics
    | _ => metrics
    end in
  ping_test <- _run_remote_command "ping -c 3 8.8.8.8" ;;
  let metrics :=
    match ping_test with
    | Some (String _ _ as ping_test) =>
        setitem "internet_connectivity"
          (VBool (contains "ping successful" ping_test
                  || contains "3 received" ping_test))
          metrics
    | _ => setitem "internet_connectivity" (VBool false) metrics
    end in
  connections <- _run_remote_command "ss -tuln" ;;
  let metrics :=
    match connections with
    | Some (String _ _ as connections) =>
        setitem "active_connections"
          (VInt (len (split_on nl connections) - 1)) metrics
    | _ => metrics
    end in
  ret metrics.

(** [get_process_metrics] *)
Definition get_process_metrics : M dict :=
  let metrics : dict := [] in
  top_cpu <- _run_remote_command "ps aux --sort=-%cpu | head -10" ;;
  let metrics :=
    match top_cpu with
    | Some (String _ _ as top_cpu) =>
        setitem "top_cpu_processes" (VStr top_cpu) metrics
    | _ => metrics
    end in
  top_mem <- _run_remote_command "ps aux --sort=-%mem | head -10" ;;
  let metrics :=
    match top_mem with
    | Some (String _ _ as top_mem) =>
        setitem "top_memory_processes" (VStr top_mem) metrics
    | _ => metrics
    end in
  proc_count <- _run_remote_command "ps aux | wc -l" ;;
  metrics <- match proc_count with
             | Some (String _ _ as proc_count) =>
                 try_except
                   (n <- lift (int proc_count) ;;
                    ret (setitem "total_processes" (VInt (n - 1)) metrics))
                   [ (exn_eqb ValueError, fun _ => ret metrics) ]
             | _ => ret metrics
             end ;;
  failed_services <- _run_remote_command "systemctl --failed --no-legend" ;;
  let metrics :=
    match failed_services with
    | Some (String _ _ as failed_services) =>
        setitem "failed_services"
          (VList (if negb (is_empty (strip failed_services))
                  then List.map VStr (split_on nl failed_services)
                  else []))
          metrics
    | _ => metrics
    end in
  ret metrics.

(** [get_log_errors] *)
Definition get_log_errors : M dict :=
  let metrics : dict := [] in
  kernel_errors <- _run_remote_command "dmesg | grep -i error | tail -10" ;;
  let metrics :=
    match kernel_errors with
    | Some (String _ _ as kernel_errors) =>
        setitem "recent_kernel_errors"
          (VList (List.map VStr (split_on nl kernel_errors))) metrics
    | _ => metrics
    end in
  syslog_errors <- _run_remote_command
    "journalctl --since='1 hour ago' -p err --no-pager | tail -20" ;;
  let metrics :=
    match syslog_errors with
    | Some (String _ _ as syslog_errors) =>
        setitem "recent_syslog_errors"
          (VList (List.map VStr (split_on nl syslog_errors))) metrics
    | _ => metrics
    end in
  ret metrics.

(** [collect_all_metrics] *)
Definition collect_all_metrics : M dict :=
  let timestamp := now_isoformat w in
  log INFO (StartingHealthCheck (hostname self)) ;;
  system_info <- get_system_info ;;
  cpu_metrics <- get_cpu_metrics ;;
  memory_metrics <- get_memory_metrics ;;
  disk_metrics <- get_disk_metrics ;;
  network_metrics <- get_network_metrics ;;
  process_metrics <- get_process_metrics ;;
  log_errors <- get_log_errors ;;
  let metrics : dict :=
    [("timestamp", VStr timestamp);
     ("hostname", VStr (hostname self));
     ("system_info", VDict system_info);
     ("cpu_metrics", VDict cpu_metrics);
     ("memory_metrics", VDict memory_metrics);
     ("disk_metrics", VDict disk_metrics);
     ("network_metrics", VDict network_metrics);
     ("process_metrics", VDict process_metrics);
     ("log_errors", VDict log_errors)] in
  ret metrics.

(** [save_metrics]: [open] creates or empties the file before
    [json.dump] runs, so a dump that fails leaves the file opened and
    not written. *)
Definition save_metrics (metrics : dict) : M unit :=
  let timestamp := now_strftime w in
  let filename :=
    fspath
      (truediv log_dir
         ("health_check_" ++ hostname self ++ "_" ++ timestamp ++ ".json")%string) in
  try_except
    (match open_w w filename with
     | Some e => raise e
     | None =>
         emit (Opened filename) ;;
         match json_dump w filename (VDict metrics) with
         | None => emit (Wrote filename (VDict metrics))
         | Some e => raise e
         end
     end ;;
     log INFO (MetricsSaved filename))
    [ (is_Exception, fun e => log ERROR (FailedToSaveMetrics e)) ].

(** [monitor_once] *)
Definition monitor_once : M bool :=
  try_except
    (metrics <- collect_all_metrics ;;
     save_metrics metrics ;;
     cpu_metrics <- lift (get_default "cpu_metrics" (VDict []) (VDict metrics)) ;;
     mem_metrics <- lift (get_default "memory_metrics" (VDict []) (VDict metrics)) ;;
     has_temp <- lift (contains_key "cpu_temperature_c" cpu_metrics) ;;
     (if has_temp : bool then
        temp <- lift (subscript cpu_metrics "cpu_temperature_c") ;;
        hot <- lift (gt_int temp 70) ;;
        if hot : bool then log WARNING (HighCPUTemperature temp) else ret tt
      else ret tt) ;;
     has_memory <- lift (contains_key "memory" mem_metrics) ;;
     (if has_memory : bool then
        memory <- lift (subscript mem_metrics "memory") ;;
        mem_usage <- lift (get_default "usage_percent" (VInt 0) memory) ;;
        high <- lift (gt_int mem_usage 90) ;;
        if high : bool then log WARNING (HighMemoryUsage mem_usage) else ret tt
      else ret tt) ;;
     ret true)
    [ (is_Exception,
       fun e => log ERROR (MonitoringCycleFailed e) ;; ret false) ].

(** One pass through the body of the [while True] loop of
    [monitor_continuous]: [Ok true] when the loop goes on, [Ok false]
    after [break], [Raise e] when [e] leaves the loop. *)
Definition loop_iteration (interval : Z) : M bool :=
  try_except
    (success <- monitor_once ;;
     (if negb success then log ERROR CycleFailedWillRetry else ret tt) ;;
     time_sleep (sleep_in_try w) interval ;;
     ret true)
    [ (exn_eqb KeyboardInterrupt,
       fun _ => log INFO MonitoringStoppedByUser ;; ret false);
      (is_Exception,
       fun e =>
         log ERROR (UnexpectedError e) ;;
         time_sleep (sleep_in_handler w) interval ;;
         ret true) ].

End Methods.

(** How far [monitor_continuous] has got. *)
Inductive loop_status : Type :=
| Looping               (* still inside [while True] *)
| Returned              (* left the loop through [break] *)
| Escaped (e : exn).    (* an exception left the method *)

(** The [while True] loop, iteration [i] meeting the world [worlds i],
    unrolled [n] times. *)
Fixpoint loop (self : RPiMonitor) (interval : Z) (worlds : nat -> world)
  (i n : nat) : list event * loop_status :=
  match n with
  | O => ([], Looping)
  | S n' =>
      match loop_iteration self (worlds i) interval with
      | (evs, Ok true) =>
          let (evs', st) := loop self interval worlds (S i) n' in
          ((evs ++ evs')%list, st)
      | (evs, Ok false) => (evs, Returned)
      | (evs, Raise e) => (evs, Escaped e)
      end
  end.

(** [monitor_continuous], observed for [n] iterations. *)
Definition monitor_continuous (self : RPiMonitor) (interval : Z)
  (worlds : nat -> world) (n : nat) : list event * loop_status :=
  let (evs, st) := loop self interval worlds 0 n in
  (Logged INFO (StartingContinuousMonitoring interval) :: evs, st).

End Monitor.

(* ================================================================= *)
(** ** Vocabulary of the properties *)

Module Spec.
Import Py Monitor.

(** The argument vector [_run_remote_command] hands to [subprocess.run]. *)
Definition ssh_argv (self : RPiMonitor) (command : string) : list string :=
  (["ssh"; "-o"; "ConnectTimeout=10"; "-o"; "StrictHostKeyChecking=no"]
   ++ match key_path self with
      | Some (String _ _ as key) => ["-i"; key]
      | _ => []
      end
   ++ [(username self ++ "@" ++ hostname self)%string; command])%list.

(** A remote execution that failed: a non-zero exit status, a timeout, or
    any other error raised while the channel was set up or used. *)
Definition run_failed (r : result CompletedProcess) : bool :=
  match r with
  | Ok p => negb (returncode p =? 0)
  | Raise e => is_Exception e
  end.

(** How the [with] block of [save_metrics] ends for a file and a
    document: the exception of [open], or else that of the dump. *)
Definition open_and_dump (w : world) (filename : string) (doc : value)
  : option exn :=
  match open_w w filename with
  | Some e => Some e
  | None => json_dump w filename doc
  end.

(** What [open] leaves behind: the file, when it could be opened. *)
Definition opening (w : world) (filename : string) : list event :=
  match open_w w filename with
  | None => [Opened filename]
  | Some _ => []
  end.

(** No interrupt signal reaches the probes or the write of one cycle. *)
Definition no_interrupt (w : world) : Prop :=
  (forall argv, subprocess_run w argv <> Raise KeyboardInterrupt) /\
  (forall filename doc, open_and_dump w filename doc <> Some KeyboardInterrupt).

(** The probes of a cycle: category, command, field filled from it. *)
Definition ping : string := "ping -c 3 8.8.8.8".

Definition probes : list (string * string * string) :=
  [ ("system_info", "uptime", "uptime");
    ("system_info", "uname -r", "kernel_version");
    ("system_info", "cat /etc/os-release | grep PRETTY_NAME", "os_version");
    ("cpu_metrics",
     "top -bn1 | grep 'Cpu(s)' | awk '{print $2}' | cut -d'%' -f1",
     "cpu_usage_percent");
    ("cpu_metrics", "cat /proc/loadavg", "load_average");
    ("cpu_metrics", "vcgencmd measure_temp", "cpu_temperature_c");
    ("cpu_metrics", "vcgencmd measure_clock arm", "cpu_frequency_hz");
    ("memory_metrics", "free -m", "memory");
    ("memory_metrics", "swapon --show --noheadings", "swap");
    ("disk_metrics", "df -h", "disk_usage");
    ("disk_metrics", "iostat -d 1 2 | tail -n +4", "disk_io");
    ("network_metrics", "ip addr show", "network_interfaces");
    ("network_metrics", ping, "internet_connectivity");
    ("network_metrics", "ss -tuln", "active_connections");
    ("process_metrics", "ps aux --sort=-%cpu | head -10", "top_cpu_processes");
    ("process_metrics", "ps aux --sort=-%mem | head -10",
     "top_memory_processes");
    ("process_metrics", "ps aux | wc -l", "total_processes");
    ("process_metrics", "systemctl --failed --no-legend", "failed_services");
    ("log_errors", "dmesg | grep -i error | tail -10", "recent_kernel_errors");
    ("log_errors",
     "journalctl --since='1 hour ago' -p err --no-pager | tail -20",
     "recent_syslog_errors") ].

(** [snapshot[category][name]], when both are there. *)
Definition field (snapshot : dict) (category name : string) : option value :=
  match get category snapshot with
  | Some (VDict d) => get name d
  | _ => None
  end.

(** The path [save_metrics] writes to. *)
Definition snapshot_path (self : RPiMonitor) (w : world) : string :=
  fspath
    (truediv log_dir
       ("health_check_" ++ hostname self ++ "_" ++ now_strftime w ++ ".json")).

(** The two threshold warnings, each read off its own field. *)
Definition temperature_warning (snapshot : dict) : list event :=
  match field snapshot "cpu_metrics" "cpu_temperature_c" with
  | Some (VFloat t) =>
      if PrimFloat.ltb 70 t
      then [Logged WARNING (HighCPUTemperature (VFloat t))] else []
  | _ => []
  end.

Definition memory_warning (snapshot : dict) : list event :=
  match field snapshot "memory_metrics" "memory" with
  | Some (VDict memory) =>
      match get "usage_percent" memory with
      | Some (VFloat u) =>
          if PrimFloat.ltb 90 u
          then [Logged WARNING (HighMemoryUsage (VFloat u))] else []
      | _ => []
      end
  | _ => []
  end.

(** The records collection can log: the start of the check and the three
    failures of the executor. *)
Definition is_collection_event (ev : event) : bool :=
  match ev with
  | Logged INFO (StartingHealthCheck _)
  | Logged ERROR (CommandFailed _ _)
  | Logged ERROR (CommandTimedOut _)
  | Logged ERROR (SSHConnectionFailed _) => true
  | _ => false
  end.

Definition is_warning (ev : event) : bool :=
  match ev with Logged WARNING _ => true | _ => false end.

Definition is_write (ev : event) : bool :=
  match ev with Wrote _ _ => true | _ => false end.


(** The two records of a failed cycle: the one [monitor_once] logs at the
    cycle boundary, and the notice of the loop. *)
Definition is_cycle_failure (ev : event) : bool :=
  match ev with Logged ERROR (MonitoringCycleFailed _) => true | _ => false end.

Definition is_retry_notice (ev : event) : bool :=
  match ev with Logged ERROR CycleFailedWillRetry => true | _ => false end.

Definition is_failed_cycle_entry (ev : event) : bool :=
  is_cycle_failure ev || is_retry_notice ev.

(** The snapshot of a target none of whose probes answers. *)
Definition bare_snapshot (self : RPiMonitor) (w : world) : dict :=
  [("timestamp", VStr (now_isoformat w));
   ("hostname", VStr (hostname self));
   ("system_info", VDict []);
   ("cpu_metrics", VDict []);
   ("memory_metrics", VDict []);
   ("disk_metrics", VDict []);
   ("network_metrics", VDict [("internet_connectivity", VBool false)]);
   ("process_metrics", VDict []);
   ("log_errors", VDict [])].

(** What one iteration of the loop leaves behind when nothing interrupts
    it: the events of the cycle, the notice after a failed cycle, the
    sleep. *)
Definition iteration_events (self : RPiMonitor) (interval : Z) (w : world)
  : list event :=
  (fst (monitor_once self w)
   ++ match snd (monitor_once self w) with
      | Ok false => [Logged ERROR CycleFailedWillRetry]
      | _ => []
      end
   ++ [Slept interval])%list.

(** An interrupt arrives in this iteration: inside the cycle, or during
    the sleep that follows it. *)
Definition interrupted (self : RPiMonitor) (w : world) : Prop :=
  snd (monitor_once self w) = Raise KeyboardInterrupt \/
  ((exists b, snd (monitor_once self w) = Ok b) /\
   sleep_in_try w = Some KeyboardInterrupt).

(** The load-average text is not empty and one of its first three fields
    is missing or is not a number. *)
Definition is_float (s : string) : bool :=
  match float s with Ok _ => true | Raise _ => false end.

Definition load_average_garbled (load_avg : string) : bool :=
  negb (is_empty load_avg) &&
  negb match firstn 3 (split load_avg) with
       | m1 :: m5 :: m15 :: _ => is_float m1 && is_float m5 && is_float m15
       | _ => false
       end.

(** The output of [free -m] has a second line, and one of the columns
    total, used and free of that line is missing or is not an integer. *)
Definition is_int (s : string) : bool :=
  match int s with Ok _ => true | Raise _ => false end.

Definition memory_line_garbled (mem_info : string) : bool :=
  negb (is_empty mem_info) &&
  match split_on nl mem_info with
  | _ :: line :: _ =>
      negb match split line with
           | _ :: total :: used :: free :: _ =>
               is_int total && is_int used && is_int free
           | _ => false
           end
  | _ => false
  end.

(** The first line of the swap probe's output, cut into fields. *)
Definition swap_fields (swap_info : string) : list string :=
  split (hd EmptyString (split_on nl (strip swap_info))).

(** The number of occurrences of a character in a text. *)
Fixpoint count_char (c : ascii) (s : string) : nat :=
  match s with
  | EmptyString => O
  | String c' s' => (if Ascii.eqb c' c then 1 else 0) + count_char c s'
  end.


(** A record of [disk_usage]: the six fields, all text, the device under
    [/dev/] and the usage without a trailing percent sign. *)
Definition is_disk_record (v : value) : bool :=
  match v with
  | VDict [("device", VStr device); ("size", VStr _); ("used", VStr _);
           ("available", VStr _); ("usage_percent", VStr pct);
           ("mount_point", VStr _)] =>
      startswith "/dev/" device && String.eqb (rstrip_char "%" pct) pct
  | _ => false
  end.

(** The keys of every snapshot, in the order of the document. *)
Definition snapshot_keys : list string :=
  ["timestamp"; "hostname"; "system_info"; "cpu_metrics"; "memory_metrics";
   "disk_metrics"; "network_metrics"; "process_metrics"; "log_errors"].

Definition categories : list string :=
  ["system_info"; "cpu_metrics"; "memory_metrics"; "disk_metrics";
   "network_metrics"; "process_metrics"; "log_errors"].

(** The notice the loop logs after a cycle that returned [False]. *)
Definition retry_notice (r : result bool) : list event :=
  match r with
  | Ok false => [Logged ERROR CycleFailedWillRetry]
  | _ => []
  end.

(** The value of each field of the cpu record, read off the output of
    its own probe; [None] when the field is left out. *)
Definition cpu_field (name : string) (out : option string) : option value :=
  match out with
  | Some (String _ _ as text) =>
      if String.eqb name "cpu_usage_percent" then
        match float text with
        | Ok x => Some (VFloat x)
        | Raise _ => None
        end
      else if String.eqb name "load_average" then
        match firstn 3 (split text) with
        | l0 :: l1 :: l2 :: _ =>
            match float l0, float l1, float l2 with
            | Ok m1, Ok m5, Ok m15 =>
                Some (VDict [("1min", VFloat m1);
                             ("5min", VFloat m5);
                             ("15min", VFloat m15)])
            | _, _, _ => None
            end
        | _ => None
        end
      else if String.eqb name "cpu_temperature_c" then
        match float (replace "'C" "" (replace "temp=" "" text)) with
        | Ok x => Some (VFloat x)
        | Raise _ => None
        end
      else if String.eqb name "cpu_frequency_hz" then
        match getitem (split_on "=" text) 1 with
        | Ok freq_val =>
            match int freq_val with
            | Ok x => Some (VInt x)
            | Raise _ => None
            end
        | Raise _ => None
        end
      else None
  | _ => None
  end.

(** The same for the process record. *)
Definition process_field (name : string) (out : option string) : option value :=
  match out with
  | Some (String _ _ as text) =>
      if String.eqb name "top_cpu_processes" then Some (VStr text)
      else if String.eqb name "top_memory_processes" then Some (VStr text)
      else if String.eqb name "total_processes" then
        match int text with
        | Ok n => Some (VInt (n - 1))
        | Raise _ => None
        end
      else if String.eqb name "failed_services" then
        Some (VList (if negb (is_empty (strip text))
                     then List.map VStr (split_on nl text)
                     else []))
      else None
  | _ => None
  end.

(** The failed-cycle records one iteration leaves: none when collection
    returns; the record of the cycle boundary and then the notice of the
    loop when an exception of class [Exception] leaves collection. *)
Definition failed_cycle_entries (self : RPiMonitor) (w : world) : list event :=
  match snd (collect_all_metrics self w) with
  | Ok _ => []
  | Raise e =>
      if is_Exception e
      then [Logged ERROR (MonitoringCycleFailed e);
            Logged ERROR CycleFailedWillRetry]
      else []
  end.

(** Events hold [P] and an exception that escapes holds [Q]. *)
Definition respects {A : Type} (P : event -> Prop) (Q : exn -> Prop)
  (m : M A) : Prop :=
  Forall P (fst m) /\ forall e, snd m = Raise e -> Q e.

End Spec.

(* ================================================================= *)
(** ** Targets and worlds used as examples *)

Module Scenario.
Import Py Monitor Spec.

Definition pi : RPiMonitor :=
  {| hostname := "raspberrypi"; username := "pi"; key_path := None |}.

Definition exit0 (out : string) : result CompletedProcess :=
  Ok {| returncode := 0; stdout := out; stderr := "" |}.

Definition exit255 : result CompletedProcess :=
  Ok {| returncode := 255;
        stdout := "";
        stderr := "ssh: connect to host raspberrypi port 22: No route to host" |}.

Definition lines (ls : list string) : string :=
  String.concat (String nl EmptyString) ls.

(** A world whose remote side answers each command by [answers]; the file
    is written and the sleeps complete. *)
Definition world_of (answers : string -> result CompletedProcess) : world :=
  {| subprocess_run := fun argv => answers (last argv EmptyString);
     now_isoformat := "2024-05-01T10:00:00.000000";
     now_strftime := "20240501_100000";
     open_w := fun _ => None;
     json_dump := fun _ _ => None;
     sleep_in_try := None;
     sleep_in_handler := None |}.

(** The same world with one command answered differently. *)
Definition answering (command : string) (r : result CompletedProcess)
  (answers : string -> result CompletedProcess)
  : string -> result CompletedProcess :=
  fun c => if String.eqb c command then r else answers c.

Definition table (rows : list (string * string)) (command : string)
  : result CompletedProcess :=
  match find (fun row => String.eqb (fst row) command) rows with
  | Some row => exit0 (snd row)
  | None => exit255
  end.

(** [free -m] with 512 of 1024 MB in use and 400 available. *)
Definition free_half_used : string :=
  lines ["       total   used   free  shared  buff/cache  available";
         "Mem:    1024    512    512      10         100        400";
         "Swap:     99      0     99"].

(** A healthy Raspberry Pi: 65 degrees, half of the memory in use, no
    failed unit. *)
Definition healthy : string -> result CompletedProcess :=
  table
    [ ("uptime",
       " 10:00:00 up 1 day,  2:03,  1 user,  load average: 0.52, 0.58, 0.59");
      ("uname -r", "6.1.21-v8+");
      ("cat /etc/os-release | grep PRETTY_NAME",
       "PRETTY_NAME=" ++ String dquote "Raspbian GNU/Linux 11 (bullseye)"
       ++ String dquote EmptyString);
      ("top -bn1 | grep 'Cpu(s)' | awk '{print $2}' | cut -d'%' -f1", "3.2");
      ("cat /proc/loadavg", "0.52 0.58 0.59 1/123 4567");
      ("vcgencmd measure_temp", "temp=65.0'C");
      ("vcgencmd measure_clock arm", "frequency(48)=1500000000");
      ("free -m", free_half_used);
      ("swapon --show --noheadings", "/var/swap file 100M 0B -2");
      ("df -h",
       lines ["Filesystem      Size  Used Avail Use% Mounted on";
              "/dev/root        29G  5.1G   23G  19% /";
              "tmpfs           1.9G     0  1.9G   0% /dev/shm"]);
      ("iostat -d 1 2 | tail -n +4", "mmcblk0  1.20  30.1  12.4  100  200");
      ("ip addr show", "1: lo: <LOOPBACK,UP,LOWER_UP> mtu 65536");
      (ping, "3 packets transmitted, 3 received, 0% packet loss, time 2003ms");
      ("ss -tuln",
       lines ["Netid State  Recv-Q Send-Q Local Address:Port";
              "tcp   LISTEN 0      128    0.0.0.0:22"]);
      ("ps aux --sort=-%cpu | head -10", "USER PID %CPU %MEM COMMAND");
      ("ps aux --sort=-%mem | head -10", "USER PID %CPU %MEM COMMAND");
      ("ps aux | wc -l", "124");
      ("systemctl --failed --no-legend", "");
      ("dmesg | grep -i error | tail -10", "");
      ("journalctl --since='1 hour ago' -p err --no-pager | tail -20", "") ].

Definition healthy_world : world := world_of healthy.

(** A target that cannot be reached: every ssh call exits with 255. *)
Definition unreachable : world := world_of (fun _ => exit255).

(** The load-average probe prints text that is not a number. *)
Definition garbled_loadavg : world :=
  world_of (answering "cat /proc/loadavg" (exit0 "n/a") healthy).

(** The cpu-usage probe prints text that is not a number. *)
Definition garbled_cpu_usage : world :=
  world_of
    (answering "top -bn1 | grep 'Cpu(s)' | awk '{print $2}' | cut -d'%' -f1"
       (exit0 "n/a") healthy).

(** [free -m] prints a used column that is not an integer. *)
Definition garbled_free : world :=
  world_of
    (answering "free -m"
       (exit0 (lines ["       total   used   free";
                      "Mem:    1024    n/a    512"]))
       healthy).

(** 75 degrees and 950 of 1000 MB in use. *)
Definition hot_and_full : world :=
  world_of
    (answering "vcgencmd measure_temp" (exit0 "temp=75.0'C")
       (answering "free -m"
          (exit0 (lines ["       total   used   free  shared  buff/cache  available";
                         "Mem:    1000    950     50      10          10         40"]))
          healthy)).

Definition hot : world :=
  world_of (answering "vcgencmd measure_temp" (exit0 "temp=75.0'C") healthy).

(** The swap probe prints a line of three, and of four, fields. *)
Definition swap_three_fields : world :=
  world_of (answering "swapon --show --noheadings"
              (exit0 "/var/swap file 100M") healthy).

Definition swap_four_fields : world :=
  world_of (answering "swapon --show --noheadings"
              (exit0 "/var/swap file 100M 0B") healthy).

(** The disk is full: the file is created, and the dump into it raises. *)
Definition disk_full : world :=
  {| subprocess_run := subprocess_run healthy_world;
     now_isoformat := now_isoformat healthy_world;
     now_strftime := now_strftime healthy_world;
     open_w := fun _ => None;
     json_dump := fun _ _ => Some OSError;
     sleep_in_try := None;
     sleep_in_handler := None |}.

(** Ctrl-C arrives while the loop sleeps. *)
Definition interrupted_asleep : world :=
  {| subprocess_run := subprocess_run garbled_loadavg;
     now_isoformat := now_isoformat healthy_world;
     now_strftime := now_strftime healthy_world;
     open_w := fun _ => None;
     json_dump := fun _ _ => None;
     sleep_in_try := Some KeyboardInterrupt;
     sleep_in_handler := None |}.

(** [/etc/os-release] has a line with [PRETTY_NAME] and no equals sign. *)
Definition os_release_without_equals : world :=
  world_of (answering "cat /etc/os-release | grep PRETTY_NAME"
              (exit0 "# PRETTY_NAME is set below") healthy).

(** [free -m] of an old procps: four columns, no [available]. *)
Definition free_four_columns : world :=
  world_of (answering "free -m"
              (exit0 (lines ["       total   used   free";
                             "Mem:    1024    512    512"]))
              healthy).

(** [free -m] reporting no memory at all. *)
Definition free_zero_total : world :=
  world_of (answering "free -m"
              (exit0 (lines ["       total   used   free";
                             "Mem:       0      0      0"]))
              healthy).

(** Two kernel errors in [dmesg]. *)
Definition two_kernel_errors : world :=
  world_of (answering "dmesg | grep -i error | tail -10"
              (exit0 (lines ["[   12.1] mmc0: error -110";
                             "[   99.7] EXT4-fs error (device mmcblk0p2)"]))
              healthy).

(** The sleep after the cycle fails with an [OSError]; the sleep of the
    handler completes. *)
Definition sleep_fails : world :=
  {| subprocess_run := subprocess_run healthy_world;
     now_isoformat := now_isoformat healthy_world;
     now_strftime := now_strftime healthy_world;
     open_w := fun _ => None;
     json_dump := fun _ _ => None;
     sleep_in_try := Some OSError;
     sleep_in_handler := None |}.

(** The healthy target five minutes later. *)
Definition healthy_later : world :=
  {| subprocess_run := subprocess_run healthy_world;
     now_isoformat := "2024-05-01T10:05:00.000000";
     now_strftime := "20240501_100500";
     open_w := fun _ => None;
     json_dump := fun _ _ => None;
     sleep_in_try := None;
     sleep_in_handler := None |}.

(** A monitor whose host name holds a doubled slash. *)
Definition slashed : RPiMonitor :=
  {| hostname := "lab//pi"; username := "pi"; key_path := None |}.

(** Ctrl-C reaches every ssh call. *)
Definition interrupted_probes : world :=
  world_of (fun _ => Raise KeyboardInterrupt).

End Scenario.

(* ================================================================= *)
(** ** Laws of the effect monad *)

Import Py Monitor Spec Scenario.

Lemma bind_ret (A B : Type) (a : A) (k : A -> M B) : bind (ret a) k = k a.
Proof. unfold bind, ret. destruct (k a). reflexivity. Qed.

Lemma bind_ret_r (A : Type) (m : M A) : bind m (fun a => ret a) = m.
Proof.
  destruct m as [evs [a|e]]; simpl; [rewrite app_nil_r|]; reflexivity.
Qed.

(* ================================================================= *)
(** ** The probe executor *)

Lemma run_remote_command_eq self w command :
  _run_remote_command self w command =
  match subprocess_run w (ssh_argv self command) with
  | Ok r =>
      if returncode r =? 0 then ([], Ok (Some (strip (stdout r))))
      else ([Logged ERROR (CommandFailed command (stderr r))], Ok None)
  | Raise e =>
      if exn_eqb TimeoutExpired e
      then ([Logged ERROR (CommandTimedOut command)], Ok None)
      else if is_Exception e
           then ([Logged ERROR (SSHConnectionFailed e)], Ok None)
           else ([], Raise e)
  end.
Proof.
  unfold _run_remote_command, ssh_argv.
  destruct (key_path self) as [[|c k]|]; simpl;
    match goal with
    | |- context [subprocess_run w ?argv] =>
        destruct (subprocess_run w argv) as [r|e]
    end; simpl;
    try (destruct (returncode r =? 0); reflexivity);
    destruct e; reflexivity.
Qed.

(** The executor raises nothing but an interrupt, and then logs nothing. *)
Lemma run_remote_command_raise self w command evs e :
  _run_remote_command self w command = (evs, Raise e) ->
  e = KeyboardInterrupt /\ evs = [] /\
  subprocess_run w (ssh_argv self command) = Raise KeyboardInterrupt.
Proof.
  rewrite run_remote_command_eq.
  destruct (subprocess_run w (ssh_argv self command)) as [r|e'].
  - destruct (returncode r =? 0); discriminate.
  - destruct e'; simpl; try discriminate.
    intros H; inversion H; auto.
Qed.

(** What it returns is trimmed text. *)
Lemma run_remote_command_some self w command evs out :
  _run_remote_command self w command = (evs, Ok (Some out)) ->
  exists r, subprocess_run w (ssh_argv self command) = Ok r /\
            returncode r = 0 /\ out = strip (stdout r) /\ evs = [].
Proof.
  rewrite run_remote_command_eq.
  destruct (subprocess_run w (ssh_argv self command)) as [r|e'].
  - destruct (returncode r =? 0) eqn:Hrc; intros H; inversion H; subst.
    exists r. apply Z.eqb_eq in Hrc. auto.
  - destruct e'; simpl; discriminate.
Qed.

Lemma run_remote_command_failed self w command :
  run_failed (subprocess_run w (ssh_argv self command)) = true ->
  snd (_run_remote_command self w command) = Ok None.
Proof.
  rewrite run_remote_command_eq.
  destruct (subprocess_run w (ssh_argv self command)) as [r|e]; simpl.
  - destruct (returncode r =? 0); [discriminate | reflexivity].
  - destruct e; simpl; intros; try reflexivity; discriminate.
Qed.

(* ================================================================= *)
(** ** What a computation logs and what can escape from it *)

Lemma respects_ret (A : Type) P Q (a : A) : respects P Q (ret a).
Proof. split; [constructor | discriminate]. Qed.

Lemma respects_lift (A : Type) P (Q : exn -> Prop) (r : result A) :
  (forall e, r = Raise e -> Q e) -> respects P Q (lift r).
Proof. intros H. split; [constructor | exact H]. Qed.

Lemma respects_raise (A : Type) P (Q : exn -> Prop) e :
  Q e -> respects P Q (@raise A e).
Proof. intros H. split; [constructor|]. simpl. intros e' [= <-]. exact H. Qed.

Lemma respects_emit (P : event -> Prop) Q ev : P ev -> respects P Q (emit ev).
Proof. intros H. split; [repeat constructor; exact H | discriminate]. Qed.

Lemma respects_bind (A B : Type) P Q (m : M A) (k : A -> M B) :
  respects P Q m -> (forall a, respects P Q (k a)) -> respects P Q (bind m k).
Proof.
  unfold respects. intros [Hm1 Hm2] Hk. destruct m as [evs [a|e]]; simpl in *.
  - destruct (Hk a) as [Hk1 Hk2]. destruct (k a) as [evs' r]; simpl in *.
    split; [apply Forall_app; auto | exact Hk2].
  - split; [assumption|]. intros e0 [= <-]. apply Hm2. reflexivity.
Qed.

Lemma respects_try_except (A : Type) P Q Q' (body : M A) clauses :
  respects P Q' body ->
  (forall e, Q' e -> respects P Q (dispatch clauses e)) ->
  respects P Q (try_except body clauses).
Proof.
  unfold respects. intros [Hb1 Hb2] Hd. destruct body as [evs [a|e]]; simpl in *.
  - split; [assumption | discriminate].
  - destruct (Hd e (Hb2 e eq_refl)) as [Hd1 Hd2].
    destruct (dispatch clauses e) as [evs' r]; simpl in *.
    split; [apply Forall_app; auto | exact Hd2].
Qed.

(** The built-ins raise exceptions of class [Exception] only. *)
Lemma float_raises s e : float s = Raise e -> e = ValueError.
Proof.
  unfold float.
  destruct (drop_underscores None (strip_by isspace_numeric s));
    [|intros [= <-]; reflexivity].
  destruct (split_sign s0).
  repeat match goal with
         | |- context [if ?b then _ else _] => destruct b
         end; try discriminate.
  destruct (decimal b s1); [discriminate | intros [= <-]; reflexivity].
Qed.

Lemma int_raises s e : int s = Raise e -> e = ValueError.
Proof.
  unfold int. destruct (split_sign _). destruct (digits s0);
    [discriminate | intros [= <-]; reflexivity].
Qed.

Lemma getitem_raises (A : Type) (xs : list A) i e :
  getitem xs i = Raise e -> e = IndexError.
Proof.
  unfold getitem. destruct (nth_error xs i);
    [discriminate | intros [= <-]; reflexivity].
Qed.

Lemma int_truediv_raises a b e :
  int_truediv a b = Raise e -> is_Exception e = true.
Proof.
  unfold int_truediv. destruct (b =? 0); [intros [= <-]; reflexivity|].
  destruct (PrimFloat.is_infinity _); [intros [= <-]; reflexivity|discriminate].
Qed.

(** Collection logs below warning level and lets nothing escape but
    exceptions of class [Exception] and the interrupts the world sends. *)
Section Collection.

Variable Q : exn -> Prop.
Variables (self : RPiMonitor) (w : world).
Let P (ev : event) : Prop := is_collection_event ev = true.
Hypothesis Q_exception : forall e, is_Exception e = true -> Q e.
Hypothesis Q_interrupt :
  forall argv, subprocess_run w argv = Raise KeyboardInterrupt ->
               Q KeyboardInterrupt.

Lemma respects_run_remote_command command :
  respects P Q (_run_remote_command self w command).
Proof.
  rewrite run_remote_command_eq.
  destruct (subprocess_run w (ssh_argv self command)) as [r|e] eqn:Hrun.
  - destruct (returncode r =? 0); split; simpl;
      repeat constructor; discriminate.
  - destruct e; simpl; split; simpl;
      repeat constructor; try discriminate.
    intros e [= <-]. eapply Q_interrupt, Hrun.
Qed.

Ltac pure_raise :=
  let e := fresh "e" in
  let H := fresh "H" in
  intros e H; apply Q_exception;
  first [ apply float_raises in H | apply int_raises in H
        | apply getitem_raises in H | apply int_truediv_raises in H; exact H ];
  subst e; reflexivity.

Ltac caught :=
  let e := fresh "e" in
  let H := fresh "H" in
  intros e H; cbn [dispatch];
  match goal with
  | |- respects _ _ (if ?b then _ else _) => destruct b
  end;
  [ apply respects_ret | apply respects_raise; exact H ].

Ltac walk :=
  repeat first
    [ apply respects_ret
    | apply respects_run_remote_command
    | apply respects_lift; pure_raise
    | apply respects_emit; reflexivity
    | apply respects_bind; [ | intros ? ]
    | apply respects_try_except with (Q' := Q); [ | caught ]
    | match goal with
      | |- respects _ _ (match ?x with _ => _ end) => destruct x
      | |- respects _ _ (if ?b then _ else _) => destruct b
      end
    | progress cbv zeta ].

Lemma respects_get_system_info : respects P Q (get_system_info self w).
Proof. unfold get_system_info. walk. Qed.

Lemma respects_get_cpu_metrics : respects P Q (get_cpu_metrics self w).
Proof. unfold get_cpu_metrics. walk. Qed.

Lemma respects_get_memory_metrics : respects P Q (get_memory_metrics self w).
Proof. unfold get_memory_metrics, memory_usage, swap_usage. walk. Qed.

Lemma respects_get_disk_metrics : respects P Q (get_disk_metrics self w).
Proof. unfold get_disk_metrics. walk. Qed.

Lemma respects_get_network_metrics : respects P Q (get_network_metrics self w).
Proof. unfold get_network_metrics. walk. Qed.

Lemma respects_get_process_metrics : respects P Q (get_process_metrics self w).
Proof. unfold get_process_metrics. walk. Qed.

Lemma respects_get_log_errors : respects P Q (get_log_errors self w).
Proof. unfold get_log_errors. walk. Qed.

Lemma respects_collect_all_metrics : respects P Q (collect_all_metrics self w).
Proof.
  unfold collect_all_metrics. cbv zeta.
  apply respects_bind; [apply respects_emit; reflexivity | intros _].
  apply respects_bind; [apply respects_get_system_info | intros ?].
  apply respects_bind; [apply respects_get_cpu_metrics | intros ?].
  apply respects_bind; [apply respects_get_memory_metrics | intros ?].
  apply respects_bind; [apply respects_get_disk_metrics | intros ?].
  apply respects_bind; [apply respects_get_network_metrics | intros ?].
  apply respects_bind; [apply respects_get_process_metrics | intros ?].
  apply respects_bind; [apply respects_get_log_errors | intros ?].
  apply respects_ret.
Qed.

End Collection.

(* ================================================================= *)
(** ** Running the methods symbolically *)

Lemma snd_bind (A B : Type) (m : M A) (k : A -> M B) :
  snd (bind m k) =
  match snd m with Ok a => snd (k a) | Raise e => Raise e end.
Proof. destruct m as [evs [a|e]]; simpl; [destruct (k a)|]; reflexivity. Qed.

Lemma snd_try_except (A : Type) (body : M A) clauses :
  snd (try_except body clauses) =
  match snd body with Ok a => Ok a | Raise e => snd (dispatch clauses e) end.
Proof.
  destruct body as [evs [a|e]]; simpl; [|destruct (dispatch clauses e)];
    reflexivity.
Qed.

(** One step: push [snd] through the next statement, use what is known
    about a probe, or split on the value a branch depends on. *)
Ltac exec_step :=
  match goal with
  | |- context [snd (bind _ _)] => rewrite snd_bind
  | |- context [snd (try_except _ _)] => rewrite snd_try_except
  | |- context [snd (lift _)] => progress cbn [snd lift]
  | |- context [snd (ret _)] => progress cbn [snd ret]
  | |- context [snd (raise _)] => progress cbn [snd raise]
  | |- context [dispatch (_ :: _) _] => progress cbn [dispatch]
  | H : snd (_run_remote_command ?s ?w ?c) = _
    |- context [snd (_run_remote_command ?s ?w ?c)] => rewrite H
  | H : forall c, snd (_run_remote_command ?s ?w c) = _
    |- context [snd (_run_remote_command ?s ?w _)] => rewrite H
  | H : float ?s = _ |- context [float ?s] => rewrite H
  | H : (len ?l >=? ?n) = _ |- context [len ?l >=? ?n] => rewrite H
  | |- _ => progress cbv beta iota
  | |- context [match ?x with _ => _ end] =>
      lazymatch x with
      | context [match _ with _ => _ end] => fail
      | _ => destruct x eqn:?
      end
  end.

Lemma Ok_inj (A : Type) (a b : A) : Ok a = Ok b -> a = b.
Proof. congruence. Qed.

Ltac exec_done :=
  intros; try discriminate;
  repeat match goal with
         | H : Ok _ = Ok _ |- _ => apply Ok_inj in H; subst
         end;
  try reflexivity.

Ltac exec := repeat exec_step; exec_done.

Lemma get_system_info_omits self w command name info :
  In ("system_info", command, name) probes ->
  snd (_run_remote_command self w command) = Ok None ->
  snd (get_system_info self w) = Ok info ->
  get name info = None.
Proof.
  intros Hin Hfail. revert info.
  simpl in Hin.
  repeat (destruct Hin as [Hin|Hin]; [inversion Hin; subst; clear Hin|]);
    try contradiction;
    unfold get_system_info; cbv zeta; exec.
Qed.

Ltac by_probe Hin :=
  simpl in Hin;
  repeat (destruct Hin as [Hin|Hin]; [inversion Hin; subst; clear Hin|]);
  try contradiction; unfold ping in *.

Lemma get_cpu_metrics_omits self w command name metrics :
  In ("cpu_metrics", command, name) probes ->
  snd (_run_remote_command self w command) = Ok None ->
  snd (get_cpu_metrics self w) = Ok metrics ->
  get name metrics = None.
Proof.
  intros Hin Hfail. revert metrics. by_probe Hin;
    unfold get_cpu_metrics; cbv zeta; exec.
Qed.

Lemma get_memory_metrics_omits self w command name metrics :
  In ("memory_metrics", command, name) probes ->
  snd (_run_remote_command self w command) = Ok None ->
  snd (get_memory_metrics self w) = Ok metrics ->
  get name metrics = None.
Proof.
  intros Hin Hfail. revert metrics. by_probe Hin;
    unfold get_memory_metrics, memory_usage, swap_usage; cbv zeta; exec.
Qed.

Lemma get_disk_metrics_omits self w command name metrics :
  In ("disk_metrics", command, name) probes ->
  snd (_run_remote_command self w command) = Ok None ->
  snd (get_disk_metrics self w) = Ok metrics ->
  get name metrics = None.
Proof.
  intros Hin Hfail. revert metrics. by_probe Hin;
    unfold get_disk_metrics; cbv zeta; exec.
Qed.

Lemma get_network_metrics_omits self w command name metrics :
  In ("network_metrics", command, name) probes ->
  snd (_run_remote_command self w command) = Ok None ->
  snd (get_network_metrics self w) = Ok metrics ->
  get name metrics =
  if String.eqb command ping then Some (VBool false) else None.
Proof.
  intros Hin Hfail. revert metrics. by_probe Hin;
    match goal with
    | |- context [String.eqb ?c ?p] =>
        let b := eval vm_compute in (String.eqb c p) in
        change (String.eqb c p) with b
    end;
    cbv iota; unfold get_network_metrics; cbv zeta; exec.
Qed.

Lemma get_process_metrics_omits self w command name metrics :
  In ("process_metrics", command, name) probes ->
  snd (_run_remote_command self w command) = Ok None ->
  snd (get_process_metrics self w) = Ok metrics ->
  get name metrics = None.
Proof.
  intros Hin Hfail. revert metrics. by_probe Hin;
    unfold get_process_metrics; cbv zeta; exec.
Qed.

Lemma get_log_errors_omits self w command name metrics :
  In ("log_errors", command, name) probes ->
  snd (_run_remote_command self w command) = Ok None ->
  snd (get_log_errors self w) = Ok metrics ->
  get name metrics = None.
Proof.
  intros Hin Hfail. revert metrics. by_probe Hin;
    unfold get_log_errors; cbv zeta; exec.
Qed.

(* ================================================================= *)
(** ** The shape of a snapshot *)

Lemma collect_all_metrics_inv self w snapshot :
  snd (collect_all_metrics self w) = Ok snapshot ->
  exists system_info cpu_metrics memory_metrics disk_metrics
         network_metrics process_metrics log_errors,
    snd (get_system_info self w) = Ok system_info /\
    snd (get_cpu_metrics self w) = Ok cpu_metrics /\
    snd (get_memory_metrics self w) = Ok memory_metrics /\
    snd (get_disk_metrics self w) = Ok disk_metrics /\
    snd (get_network_metrics self w) = Ok network_metrics /\
    snd (get_process_metrics self w) = Ok process_metrics /\
    snd (get_log_errors self w) = Ok log_errors /\
    snapshot =
      [("timestamp", VStr (now_isoformat w));
       ("hostname", VStr (hostname self));
       ("system_info", VDict system_info);
       ("cpu_metrics", VDict cpu_metrics);
       ("memory_metrics", VDict memory_metrics);
       ("disk_metrics", VDict disk_metrics);
       ("network_metrics", VDict network_metrics);
       ("process_metrics", VDict process_metrics);
       ("log_errors", VDict log_errors)].
Proof.
  unfold collect_all_metrics. cbv zeta.
  rewrite snd_bind. cbn [snd log emit].
  repeat (rewrite snd_bind;
          match goal with
          | |- context [match snd ?m with _ => _ end] =>
              destruct (snd m) as [?d|?e]; [|discriminate]
          end).
  cbn [snd ret]. intros [= <-].
  do 7 eexists. repeat (split; [reflexivity|]). reflexivity.
Qed.

Lemma collect_all_metrics_compose self w
  system_info cpu_metrics memory_metrics disk_metrics
  network_metrics process_metrics log_errors :
  snd (get_system_info self w) = Ok system_info ->
  snd (get_cpu_metrics self w) = Ok cpu_metrics ->
  snd (get_memory_metrics self w) = Ok memory_metrics ->
  snd (get_disk_metrics self w) = Ok disk_metrics ->
  snd (get_network_metrics self w) = Ok network_metrics ->
  snd (get_process_metrics self w) = Ok process_metrics ->
  snd (get_log_errors self w) = Ok log_errors ->
  snd (collect_all_metrics self w) =
  Ok [("timestamp", VStr (now_isoformat w));
      ("hostname", VStr (hostname self));
      ("system_info", VDict system_info);
      ("cpu_metrics", VDict cpu_metrics);
      ("memory_metrics", VDict memory_metrics);
      ("disk_metrics", VDict disk_metrics);
      ("network_metrics", VDict network_metrics);
      ("process_metrics", VDict process_metrics);
      ("log_errors", VDict log_errors)].
Proof.
  intros H1 H2 H3 H4 H5 H6 H7.
  unfold collect_all_metrics. cbv zeta.
  rewrite snd_bind. cbn [snd log emit].
  rewrite snd_bind, H1, snd_bind, H2, snd_bind, H3, snd_bind, H4,
    snd_bind, H5, snd_bind, H6, snd_bind, H7.
  reflexivity.
Qed.

(** The temperature, when the cpu record has one, is a float. *)
Lemma cpu_temperature_is_float self w metrics :
  snd (get_cpu_metrics self w) = Ok metrics ->
  get "cpu_temperature_c" metrics = None \/
  exists t, get "cpu_temperature_c" metrics = Some (VFloat t).
Proof.
  revert metrics. unfold get_cpu_metrics. cbv zeta. exec;
    solve [ left; reflexivity | right; eexists; reflexivity ].
Qed.


(** The memory record, when there is one, has the five fields, the last
    being the quotient of two of the others times one hundred. *)
Lemma memory_record_shape self w metrics :
  snd (get_memory_metrics self w) = Ok metrics ->
  get "memory" metrics = None \/
  exists total_mb used_mb free_mb available_mb ratio,
    int_truediv used_mb total_mb = Ok ratio /\
    get "memory" metrics =
      Some (VDict [("total_mb", VInt total_mb);
                   ("used_mb", VInt used_mb);
                   ("free_mb", VInt free_mb);
                   ("available_mb", VInt available_mb);
                   ("usage_percent", VFloat (PrimFloat.mul ratio 100))]).
Proof.
  revert metrics.
  unfold get_memory_metrics, memory_usage, swap_usage. cbv zeta. exec;
    solve [ left; reflexivity
          | right; do 5 eexists; split; [eassumption | reflexivity] ].
Qed.

(* ================================================================= *)
(** ** Persisting and one cycle *)

Lemma save_metrics_eq self w snapshot :
  save_metrics self w snapshot =
  match open_and_dump w (snapshot_path self w) (VDict snapshot) with
  | None =>
      ([Opened (snapshot_path self w);
        Wrote (snapshot_path self w) (VDict snapshot);
        Logged INFO (MetricsSaved (snapshot_path self w))], Ok tt)
  | Some e =>
      if is_Exception e
      then ((opening w (snapshot_path self w)
             ++ [Logged ERROR (FailedToSaveMetrics e)])%list, Ok tt)
      else (opening w (snapshot_path self w), Raise e)
  end.
Proof.
  unfold save_metrics, snapshot_path, open_and_dump, opening. cbv zeta.
  destruct (open_w w _) as [e|]; [destruct e; reflexivity|].
  destruct (json_dump w _ _) as [e|]; [destruct e|]; reflexivity.
Qed.

Lemma pair_eta (A B : Type) (p : A * B) : p = (fst p, snd p).
Proof. destruct p; reflexivity. Qed.

(** A cycle whose collection returns: the snapshot is handed to
    [save_metrics], then each threshold is looked at. *)
Lemma monitor_once_collected self w snapshot :
  snd (collect_all_metrics self w) = Ok snapshot ->
  monitor_once self w =
  match snd (save_metrics self w snapshot) with
  | Ok _ =>
      ((fst (collect_all_metrics self w)
        ++ fst (save_metrics self w snapshot)
        ++ temperature_warning snapshot ++ memory_warning snapshot)%list,
       Ok true)
  | Raise e =>
      ((fst (collect_all_metrics self w)
        ++ fst (save_metrics self w snapshot))%list, Raise e)
  end.
Proof.
  intros Hc.
  destruct (collect_all_metrics_inv _ _ _ Hc)
    as (sys & cpu & mem & disk & net & proc & logs
        & _ & Hcpu & Hmem & _ & _ & _ & _ & Hs).
  unfold monitor_once.
  rewrite (pair_eta _ _ (collect_all_metrics self w)), Hc.
  cbn [bind].
  rewrite save_metrics_eq. unfold opening.
  destruct (open_and_dump w (snapshot_path self w) (VDict snapshot)) as [e|].
  - destruct (open_w w (snapshot_path self w));
      destruct e; cbn [is_Exception fst snd try_except dispatch raise app];
      try reflexivity; subst snapshot;
      destruct (cpu_temperature_is_float _ _ _ Hcpu) as [Ht|[t Ht]];
      destruct (memory_record_shape _ _ _ Hmem)
        as [Hm|(tot & used & free & av & q & _ & Hm)];
      unfold temperature_warning, memory_warning, field;
      cbn; rewrite ?Ht, ?Hm; cbn;
      repeat match goal with
             | |- context [PrimFloat.ltb ?a ?b] =>
                 destruct (PrimFloat.ltb a b)
             end; cbn; rewrite ?app_nil_r; reflexivity.
  - subst snapshot;
      destruct (cpu_temperature_is_float _ _ _ Hcpu) as [Ht|[t Ht]];
      destruct (memory_record_shape _ _ _ Hmem)
        as [Hm|(tot & used & free & av & q & _ & Hm)];
      unfold temperature_warning, memory_warning, field;
      cbn; rewrite ?Ht, ?Hm; cbn;
      repeat match goal with
             | |- context [PrimFloat.ltb ?a ?b] =>
                 destruct (PrimFloat.ltb a b)
             end; cbn; rewrite ?app_nil_r; reflexivity.
Qed.

(** A cycle whose collection raises: the exception is logged at the cycle
    boundary, unless it is an interrupt. *)
Lemma monitor_once_not_collected self w e :
  snd (collect_all_metrics self w) = Raise e ->
  monitor_once self w =
  if is_Exception e
  then ((fst (collect_all_metrics self w)
         ++ [Logged ERROR (MonitoringCycleFailed e)])%list, Ok false)
  else (fst (collect_all_metrics self w), Raise e).
Proof.
  intros Hc. unfold monitor_once.
  destruct (collect_all_metrics self w) as [evs r]. simpl in Hc. subst r.
  destruct e; cbn; rewrite ?app_nil_r; reflexivity.
Qed.

(** Nothing but an interrupt leaves [monitor_once]. *)
Lemma monitor_once_raises self w e :
  snd (monitor_once self w) = Raise e -> e = KeyboardInterrupt.
Proof.
  unfold monitor_once. rewrite snd_try_except.
  destruct (snd (bind _ _)) as [b|e']; [discriminate|].
  destruct e'; cbn; intros [= <-]; reflexivity.
Qed.

Lemma collect_all_metrics_events self w :
  Forall (fun ev => is_collection_event ev = true)
    (fst (collect_all_metrics self w)).
Proof.
  apply (respects_collect_all_metrics (fun _ => True) self w); auto.
Qed.

Lemma collect_all_metrics_raises self w e :
  no_interrupt w ->
  snd (collect_all_metrics self w) = Raise e -> is_Exception e = true.
Proof.
  intros [Hrun _].
  apply (respects_collect_all_metrics
           (fun e => is_Exception e = true) self w); auto.
  intros argv H. destruct (Hrun argv H).
Qed.

(** Without an interrupt, [monitor_once] returns a boolean. *)
Lemma monitor_once_returns self w :
  no_interrupt w -> exists b, snd (monitor_once self w) = Ok b.
Proof.
  intros Hw.
  destruct (snd (collect_all_metrics self w)) as [snapshot|e] eqn:Hc.
  - rewrite (monitor_once_collected _ _ _ Hc), save_metrics_eq.
    destruct Hw as [_ Hdump].
    destruct (open_and_dump w _ _) as [e|] eqn:Hd; [|eexists; reflexivity].
    destruct e; try (eexists; reflexivity).
    destruct (Hdump _ _ Hd).
  - rewrite (monitor_once_not_collected _ _ _ Hc),
      (collect_all_metrics_raises _ _ _ Hw Hc).
    eexists; reflexivity.
Qed.

(* ================================================================= *)
(** ** Trimmed text *)

Lemma rstrip_by_idempotent p s : rstrip_by p (rstrip_by p s) = rstrip_by p s.
Proof.
  induction s as [|c s IH]; simpl; [reflexivity|].
  destruct (p c) eqn:Hc; simpl.
  - destruct (rstrip_by p s) eqn:Hr; simpl; [reflexivity|].
    rewrite Hc. simpl in IH. rewrite IH. simpl.
    destruct (p a && is_empty s0); reflexivity.
  - rewrite Hc, IH. reflexivity.
Qed.

Lemma lstrip_by_fixed p s :
  lstrip_by p s = s -> lstrip_by p (rstrip_by p s) = rstrip_by p s.
Proof.
  destruct s as [|c s]; simpl; [reflexivity|].
  destruct (p c) eqn:Hc; simpl.
  - intros H. exfalso.
    assert (Hlen : forall t, (String.length (lstrip_by p t) <= String.length t)%nat).
    { induction t as [|c' t IH]; simpl; [lia|].
      destruct (p c'); simpl; lia. }
    specialize (Hlen s). rewrite H in Hlen. simpl in Hlen. lia.
  - intros _. rewrite Hc. reflexivity.
Qed.

Lemma lstrip_by_idempotent p s : lstrip_by p (lstrip_by p s) = lstrip_by p s.
Proof.
  induction s as [|c s IH]; simpl; [reflexivity|].
  destruct (p c) eqn:Hc; [exact IH|]. simpl. rewrite Hc. reflexivity.
Qed.

Lemma strip_idempotent s : strip (strip s) = strip s.
Proof.
  unfold strip, strip_by.
  rewrite (lstrip_by_fixed _ _ (lstrip_by_idempotent isspace s)).
  apply rstrip_by_idempotent.
Qed.

Lemma split_on_not_nil sep s : split_on sep s <> [].
Proof.
  destruct s as [|c s]; simpl; [discriminate|].
  destruct (Ascii.eqb c sep); [discriminate|].
  destruct (split_on sep s); discriminate.
Qed.

(** What a probe returns is already trimmed. *)
Lemma run_remote_command_trimmed self w command out :
  snd (_run_remote_command self w command) = Ok (Some out) ->
  strip out = out /\ fst (_run_remote_command self w command) = [].
Proof.
  intros H.
  destruct (run_remote_command_some self w command
              (fst (_run_remote_command self w command)) out)
    as (r & _ & _ & -> & Hevs).
  - rewrite <- H. apply pair_eta.
  - split; [apply strip_idempotent | exact Hevs].
Qed.

(* ================================================================= *)
(** ** The swap block *)

Lemma len_ge (A : Type) (xs : list A) (n : nat) :
  (len xs >=? Z.of_nat n) = (n <=? List.length xs)%nat.
Proof.
  unfold len. destruct (Nat.leb_spec n (List.length xs));
    [apply Z.geb_le | rewrite Z.geb_leb; apply Z.leb_gt]; lia.
Qed.

Lemma swap_usage_short_line self w metrics swap_info :
  snd (_run_remote_command self w "swapon --show --noheadings")
    = Ok (Some swap_info) ->
  (List.length (swap_fields swap_info) < 4)%nat ->
  swap_usage self w metrics = ([], Ok metrics).
Proof.
  intros Hprobe Hlen.
  destruct (run_remote_command_trimmed _ _ _ _ Hprobe) as [_ Hevs].
  unfold swap_usage.
  rewrite (pair_eta _ _ (_run_remote_command _ _ _)), Hprobe, Hevs.
  unfold bind, swap_fields in *.
  destruct swap_info as [|c s]; [reflexivity|].
  destruct (split_on nl (strip (String c s))) as [|[|c' first] rest];
    try reflexivity.
  simpl hd in Hlen.
  change 4 with (Z.of_nat 4). rewrite len_ge.
  destruct (Nat.leb_spec 4 (List.length (split (String c' first))));
    [lia | reflexivity].
Qed.

Lemma swap_usage_four_fields self w metrics swap_info :
  snd (_run_remote_command self w "swapon --show --noheadings")
    = Ok (Some swap_info) ->
  List.length (swap_fields swap_info) = 4%nat ->
  swap_usage self w metrics = ([], Raise IndexError).
Proof.
  intros Hprobe Hlen.
  destruct (run_remote_command_trimmed _ _ _ _ Hprobe) as [_ Hevs].
  unfold swap_usage.
  rewrite (pair_eta _ _ (_run_remote_command _ _ _)), Hprobe, Hevs.
  unfold bind, swap_fields in *.
  destruct swap_info as [|c s]; [discriminate|].
  destruct (split_on nl (strip (String c s))) as [|[|c' first] rest];
    try discriminate.
  simpl hd in Hlen.
  destruct (split (String c' first)) as [|f0 [|f1 [|f2 [|f3 [|f4 fs]]]]];
    try discriminate.
  reflexivity.
Qed.

Lemma memory_usage_no_swap self w metrics :
  snd (memory_usage self w []) = Ok metrics -> get "swap" metrics = None.
Proof. revert metrics. unfold memory_usage. exec. Qed.

(* ================================================================= *)
(** ** A target none of whose probes answers *)

Section Unanswered.

Variables (self : RPiMonitor) (w : world).
Hypothesis unanswered :
  forall command, snd (_run_remote_command self w command) = Ok None.

Lemma get_system_info_unanswered : snd (get_system_info self w) = Ok [].
Proof. unfold get_system_info. cbv zeta. exec. Qed.

Lemma get_cpu_metrics_unanswered : snd (get_cpu_metrics self w) = Ok [].
Proof. unfold get_cpu_metrics. cbv zeta. exec. Qed.

Lemma get_memory_metrics_unanswered : snd (get_memory_metrics self w) = Ok [].
Proof. unfold get_memory_metrics, memory_usage, swap_usage. cbv zeta. exec. Qed.

Lemma get_disk_metrics_unanswered : snd (get_disk_metrics self w) = Ok [].
Proof. unfold get_disk_metrics. cbv zeta. exec. Qed.

Lemma get_network_metrics_unanswered :
  snd (get_network_metrics self w) = Ok [("internet_connectivity", VBool false)].
Proof. unfold get_network_metrics. cbv zeta. exec. Qed.

Lemma get_process_metrics_unanswered : snd (get_process_metrics self w) = Ok [].
Proof. unfold get_process_metrics. cbv zeta. exec. Qed.

Lemma get_log_errors_unanswered : snd (get_log_errors self w) = Ok [].
Proof. unfold get_log_errors. cbv zeta. exec. Qed.

Lemma collect_all_metrics_unanswered :
  snd (collect_all_metrics self w) = Ok (bare_snapshot self w).
Proof.
  apply collect_all_metrics_compose;
    auto using get_system_info_unanswered, get_cpu_metrics_unanswered,
      get_memory_metrics_unanswered, get_disk_metrics_unanswered,
      get_network_metrics_unanswered, get_process_metrics_unanswered,
      get_log_errors_unanswered.
Qed.

End Unanswered.

Lemma existsb_none (A : Type) (p : A -> bool) (xs : list A) :
  Forall (fun x => p x = false) xs -> existsb p xs = false.
Proof.
  induction 1 as [|x xs Hx _ IH]; simpl; [reflexivity|].
  rewrite Hx. exact IH.
Qed.

(* ================================================================= *)
(** ** The claims *)

(** C2, as amended.  Whatever the command, nothing but an interrupt is
    raised by [_run_remote_command]; a remote execution that ends with a
    non-zero exit status, a timeout or another error makes it return
    [None], and an
    execution with exit status 0 makes it return the standard output
    trimmed; when the executor fails on the command of a probe and the
    snapshot is assembled, the field of that probe is absent from its
    category, except for the connectivity probe, whose field is present
    and false. *)
Theorem failed_probe_is_contained self w command :
  (forall e, snd (_run_remote_command self w command) = Raise e ->
             e = KeyboardInterrupt) /\
  (run_failed (subprocess_run w (ssh_argv self command)) = true ->
   snd (_run_remote_command self w command) = Ok None) /\
  (forall r,
     subprocess_run w (ssh_argv self command) = Ok r ->
     returncode r = 0 ->
     _run_remote_command self w command = ([], Ok (Some (strip (stdout r))))) /\
  (forall category name snapshot,
     In (category, command, name) probes ->
     run_failed (subprocess_run w (ssh_argv self command)) = true ->
     snd (collect_all_metrics self w) = Ok snapshot ->
     field snapshot category name =
     if String.eqb command ping then Some (VBool false) else None).
Proof.
  split; [|split; [apply run_remote_command_failed | split]].
  - intros e He.
    apply (run_remote_command_raise self w command
             (fst (_run_remote_command self w command))).
    rewrite <- He. apply pair_eta.
  - intros r Hrun Hrc. rewrite run_remote_command_eq, Hrun, Hrc. reflexivity.
  - intros category name snapshot Hin Hfail Hc.
    apply run_remote_command_failed in Hfail.
    destruct (collect_all_metrics_inv _ _ _ Hc)
      as (sys & cpu & mem & disk & net & proc & logs
          & Hsys & Hcpu & Hmem & Hdisk & Hnet & Hproc & Hlogs & ->).
    pose proof Hin as Hin'. simpl in Hin'.
    repeat (destruct Hin' as [Hin'|Hin'];
            [inversion Hin'; subst; clear Hin'|]);
      try contradiction;
      match goal with
      | |- context [String.eqb ?c ?p] =>
          let b := eval vm_compute in (String.eqb c p) in
          change (String.eqb c p) with b
      end;
      cbv iota; unfold field; simpl get;
      first [ eapply get_system_info_omits; eassumption
            | eapply get_cpu_metrics_omits; eassumption
            | eapply get_memory_metrics_omits; eassumption
            | eapply get_disk_metrics_omits; eassumption
            | eapply get_process_metrics_omits; eassumption
            | eapply get_log_errors_omits; eassumption
            | apply (get_network_metrics_omits _ _ _ _ _ Hin Hfail Hnet) ].
Qed.

(** The amended C2 at a target that cannot be reached, for the uptime probe. *)
Lemma failed_probe_is_contained_at_unreachable :
  snd (_run_remote_command pi unreachable "uptime") = Ok None /\
  field (bare_snapshot pi unreachable) "system_info" "uptime" = None.
Proof.
  destruct (failed_probe_is_contained pi unreachable "uptime")
    as (_ & H1 & _ & H3).
  split.
  - apply H1. reflexivity.
  - apply (H3 "system_info" "uptime" (bare_snapshot pi unreachable)).
    + simpl. auto.
    + reflexivity.
    + vm_compute. reflexivity.
Defined.

(** C2, as stated, fails on the connectivity probe: when [ping] cannot
    be run the executor returns [None], and the snapshot still holds the
    field [internet_connectivity], with the value false. *)
Lemma failed_ping_leaves_connectivity_field :
  In ("network_metrics", ping, "internet_connectivity") probes /\
  run_failed (subprocess_run unreachable (ssh_argv pi ping)) = true /\
  snd (_run_remote_command pi unreachable ping) = Ok None /\
  snd (collect_all_metrics pi unreachable) = Ok (bare_snapshot pi unreachable) /\
  field (bare_snapshot pi unreachable) "network_metrics" "internet_connectivity"
    = Some (VBool false).
Proof.
  split; [simpl; tauto|].
  repeat split; vm_compute; reflexivity.
Qed.

(** C6, as amended.  When every remote execution fails, the snapshot is
    still assembled: it holds the timestamp, the target, and the seven
    categories, each an empty mapping except [network_metrics], which
    holds [internet_connectivity] false; [monitor_once] hands exactly
    that document to the write and, when the write succeeds, records it
    and returns [True]. *)
Theorem unanswered_probes_leave_bare_snapshot self w :
  (forall argv, run_failed (subprocess_run w argv) = true) ->
  snd (collect_all_metrics self w) = Ok (bare_snapshot self w) /\
  (open_and_dump w (snapshot_path self w) (VDict (bare_snapshot self w)) = None ->
   snd (monitor_once self w) = Ok true /\
   In (Wrote (snapshot_path self w) (VDict (bare_snapshot self w)))
      (fst (monitor_once self w))).
Proof.
  intros Hall.
  assert (Hc : snd (collect_all_metrics self w) = Ok (bare_snapshot self w)).
  { apply collect_all_metrics_unanswered. intros command.
    apply run_remote_command_failed, Hall. }
  split; [exact Hc|]. intros Hdump.
  rewrite (monitor_once_collected _ _ _ Hc), save_metrics_eq, Hdump.
  split; [reflexivity|]. cbn [fst snd].
  apply in_or_app. right. right. left. reflexivity.
Qed.

(** The amended C6 at a target that cannot be reached. *)
Lemma unanswered_probes_at_unreachable :
  snd (collect_all_metrics pi unreachable) = Ok (bare_snapshot pi unreachable) /\
  snd (monitor_once pi unreachable) = Ok true.
Proof.
  destruct (unanswered_probes_leave_bare_snapshot pi unreachable) as [H1 H2].
  - intros argv. reflexivity.
  - split; [exact H1|]. apply H2. reflexivity.
Defined.

(** C6, as stated, fails: for a target that cannot be reached the
    document written holds nine keys, not only the timestamp and the
    target, and its network category is not empty. *)
Lemma bare_snapshot_has_categories :
  (forall argv, run_failed (subprocess_run unreachable argv) = true) /\
  In (Wrote (snapshot_path pi unreachable) (VDict (bare_snapshot pi unreachable)))
     (fst (monitor_once pi unreachable)) /\
  keys (bare_snapshot pi unreachable) <> ["timestamp"; "hostname"] /\
  field (bare_snapshot pi unreachable) "network_metrics" "internet_connectivity"
    = Some (VBool false).
Proof.
  split; [intros argv; reflexivity|].
  split; [vm_compute; tauto|].
  split; [discriminate | reflexivity].
Qed.

(** C8.  When the first line of the swap probe's output splits into
    fewer than four fields, the swap block leaves the dictionary as it
    was and raises nothing, so [get_memory_metrics] ends exactly as its
    memory block does and a record it returns has no [swap] field. *)
Theorem short_swap_line_is_skipped self w swap_info :
  snd (_run_remote_command self w "swapon --show --noheadings")
    = Ok (Some swap_info) ->
  (List.length (swap_fields swap_info) < 4)%nat ->
  (forall metrics, swap_usage self w metrics = ([], Ok metrics)) /\
  get_memory_metrics self w = memory_usage self w [] /\
  (forall metrics,
     snd (get_memory_metrics self w) = Ok metrics -> get "swap" metrics = None).
Proof.
  intros Hprobe Hlen.
  assert (Hskip : forall metrics, swap_usage self w metrics = ([], Ok metrics))
    by (intros; eapply swap_usage_short_line; eassumption).
  assert (Heq : get_memory_metrics self w = memory_usage self w []).
  { unfold get_memory_metrics. cbv zeta.
    destruct (memory_usage self w []) as [evs [m|e]]; simpl; [|reflexivity].
    rewrite Hskip. simpl. rewrite app_nil_r. reflexivity. }
  repeat split; [exact Hskip | exact Heq |].
  intros metrics. rewrite Heq. apply memory_usage_no_swap.
Qed.

(** C8 at a swap line of three fields. *)
Lemma short_swap_line_at_three_fields :
  swap_usage pi swap_three_fields [] = ([], Ok []) /\
  get_memory_metrics pi swap_three_fields = memory_usage pi swap_three_fields [].
Proof.
  destruct (short_swap_line_is_skipped pi swap_three_fields "/var/swap file 100M")
    as (H1 & H2 & _).
  - vm_compute. reflexivity.
  - vm_compute. lia.
  - split; [apply H1 | exact H2].
Defined.

(** C9.  When the first line of the swap probe's output splits into
    exactly four fields, the guard [len(swap_parts) >= 4] holds, index 4
    is out of range, the swap block raises [IndexError], and the
    exception leaves [get_memory_metrics], which returns no record. *)
Theorem four_field_swap_line_raises self w swap_info :
  snd (_run_remote_command self w "swapon --show --noheadings")
    = Ok (Some swap_info) ->
  List.length (swap_fields swap_info) = 4%nat ->
  (len (swap_fields swap_info) >=? 4) = true /\
  getitem (swap_fields swap_info) 4 = Raise IndexError /\
  (forall metrics, swap_usage self w metrics = ([], Raise IndexError)) /\
  (forall metrics,
     snd (memory_usage self w []) = Ok metrics ->
     snd (get_memory_metrics self w) = Raise IndexError) /\
  (forall metrics, snd (get_memory_metrics self w) <> Ok metrics).
Proof.
  intros Hprobe Hlen.
  assert (Hraise : forall metrics,
             swap_usage self w metrics = ([], Raise IndexError))
    by (intros; eapply swap_usage_four_fields; eassumption).
  split; [|split; [|split; [exact Hraise | split]]].
  - change 4 with (Z.of_nat 4). rewrite len_ge, Hlen. reflexivity.
  - unfold getitem.
    destruct (nth_error (swap_fields swap_info) 4) eqn:Hnth; [|reflexivity].
    apply nth_error_Some_lt in Hnth || (assert (Hlt := nth_error_Some (swap_fields swap_info) 4); rewrite Hnth in Hlt; assert (4 < List.length (swap_fields swap_info))%nat by (apply Hlt; discriminate)); lia.
  - intros metrics Hmem. unfold get_memory_metrics. cbv zeta.
    rewrite snd_bind, Hmem, snd_bind, Hraise. reflexivity.
  - intros metrics. unfold get_memory_metrics. cbv zeta.
    rewrite snd_bind. destruct (snd (memory_usage self w [])); [|discriminate].
    rewrite snd_bind, Hraise. discriminate.
Qed.

(** C9 at a swap line of four fields. *)
Lemma four_field_swap_line_at_four_fields :
  swap_usage pi swap_four_fields [] = ([], Raise IndexError) /\
  snd (get_memory_metrics pi swap_four_fields) = Raise IndexError.
Proof.
  destruct (four_field_swap_line_raises pi swap_four_fields "/var/swap file 100M 0B")
    as (_ & _ & H3 & H4 & _).
  - vm_compute. reflexivity.
  - vm_compute. reflexivity.
  - split; [apply H3|]. eapply H4. vm_compute. reflexivity.
Defined.

(** C10.  When collection returns a snapshot and writing it raises an
    exception, in [open] or in the dump, [save_metrics] logs the failure
    and returns normally, no document is written (the file is left
    created or emptied when it was [open] that returned), and
    [monitor_once] goes on to the threshold checks and returns [True]. *)
Theorem write_failure_is_swallowed self w snapshot e :
  snd (collect_all_metrics self w) = Ok snapshot ->
  open_and_dump w (snapshot_path self w) (VDict snapshot) = Some e ->
  is_Exception e = true ->
  save_metrics self w snapshot =
    ((opening w (snapshot_path self w)
      ++ [Logged ERROR (FailedToSaveMetrics e)])%list, Ok tt) /\
  monitor_once self w =
    ((fst (collect_all_metrics self w)
      ++ (opening w (snapshot_path self w)
          ++ [Logged ERROR (FailedToSaveMetrics e)])
      ++ temperature_warning snapshot ++ memory_warning snapshot)%list,
     Ok true) /\
  existsb is_write (fst (monitor_once self w)) = false.
Proof.
  intros Hc Hdump He.
  assert (Hsave : save_metrics self w snapshot
                  = ((opening w (snapshot_path self w)
                      ++ [Logged ERROR (FailedToSaveMetrics e)])%list, Ok tt))
    by (rewrite save_metrics_eq, Hdump, He; reflexivity).
  assert (Honce : monitor_once self w =
    ((fst (collect_all_metrics self w)
      ++ (opening w (snapshot_path self w)
          ++ [Logged ERROR (FailedToSaveMetrics e)])
      ++ temperature_warning snapshot ++ memory_warning snapshot)%list,
     Ok true))
    by (rewrite (monitor_once_collected _ _ _ Hc), Hsave; reflexivity).
  repeat split; [exact Hsave | exact Honce |].
  rewrite Honce. cbn [fst].
  assert (Hev : existsb is_write (fst (collect_all_metrics self w)) = false).
  { apply existsb_none.
    eapply Forall_impl; [|apply collect_all_metrics_events].
    intros [[] []|?|? ?|?]; simpl; congruence. }
  assert (Hop : existsb is_write (opening w (snapshot_path self w)) = false)
    by (unfold opening; destruct (open_w w _); reflexivity).
  rewrite !existsb_app, Hev, Hop. cbn [existsb is_write orb].
  unfold temperature_warning, memory_warning.
  repeat match goal with
         | |- context [match ?x with _ => _ end] => destruct x
         end; reflexivity.
Qed.

(** C10 at a healthy target whose monitor cannot write the file. *)
Lemma write_failure_on_full_disk :
  snd (monitor_once pi disk_full) = Ok true /\
  existsb is_write (fst (monitor_once pi disk_full)) = false.
Proof.
  assert (Hc : exists snapshot,
             snd (collect_all_metrics pi disk_full) = Ok snapshot)
    by (eexists; vm_compute; reflexivity).
  destruct Hc as [snapshot Hc].
  destruct (write_failure_is_swallowed pi disk_full snapshot OSError Hc)
    as (_ & H2 & H3).
  - reflexivity.
  - reflexivity.
  - split; [rewrite H2; reflexivity | exact H3].
Defined.

Lemma uncollected_cycle_is_lost self w :
  (forall snapshot, snd (collect_all_metrics self w) <> Ok snapshot) ->
  snd (monitor_once self w) <> Ok true /\
  existsb is_write (fst (monitor_once self w)) = false.
Proof.
  intros Hnone.
  destruct (snd (collect_all_metrics self w)) as [snapshot|e] eqn:Hc;
    [destruct (Hnone snapshot eq_refl)|].
  assert (Hev : existsb is_write (fst (collect_all_metrics self w)) = false).
  { apply existsb_none.
    eapply Forall_impl; [|apply collect_all_metrics_events].
    intros [[] []|?|? ?|?]; simpl; congruence. }
  rewrite (monitor_once_not_collected _ _ _ Hc).
  destruct (is_Exception e); cbn [fst snd].
  - split; [discriminate|]. rewrite existsb_app, Hev. reflexivity.
  - split; [discriminate | exact Hev].
Qed.

Lemma garbled_load_average_raises self w load_avg :
  snd (_run_remote_command self w "cat /proc/loadavg") = Ok (Some load_avg) ->
  load_average_garbled load_avg = true ->
  forall metrics, snd (get_cpu_metrics self w) <> Ok metrics.
Proof.
  intros Hprobe Hbad metrics. revert metrics.
  unfold load_average_garbled in Hbad.
  destruct load_avg as [|c text]; [discriminate|].
  cbn [is_empty negb andb] in Hbad.
  intros metrics. unfold get_cpu_metrics. cbv zeta.
  repeat exec_step; intros; try discriminate;
    remember (firstn 3 (split (String c text))) as loads eqn:Hloads in *;
    destruct loads as [|m1 [|m5 [|m15 rest]]];
    cbn [getitem nth_error] in *; try discriminate;
    repeat match goal with
           | H : Ok _ = Ok _ |- _ => apply Ok_inj in H; subst
           end;
    unfold is_float in Hbad;
    repeat match goal with
           | H : float ?s = Ok _, H' : context [float ?s] |- _ =>
               rewrite H in H'
           end;
    discriminate.
Qed.

Lemma garbled_memory_line_raises self w mem_info :
  snd (_run_remote_command self w "free -m") = Ok (Some mem_info) ->
  memory_line_garbled mem_info = true ->
  forall metrics, snd (get_memory_metrics self w) <> Ok metrics.
Proof.
  intros Hprobe Hbad metrics. revert metrics.
  unfold memory_line_garbled in Hbad.
  destruct mem_info as [|c text]; [discriminate|].
  cbn [is_empty negb andb] in Hbad.
  destruct (split_on nl (String c text)) as [|header [|line rest]] eqn:Hlines;
    try discriminate.
  assert (Hlen : (len (header :: line :: rest) >=? 2) = true).
  { change 2 with (Z.of_nat 2). rewrite len_ge. reflexivity. }
  intros metrics.
  unfold get_memory_metrics, memory_usage. cbv zeta.
  rewrite snd_bind, snd_bind, Hprobe. cbv beta iota. rewrite Hlines.
  repeat exec_step; intros; try discriminate;
    cbn [getitem nth_error] in *;
    repeat match goal with
           | H : Ok _ = Ok _ |- _ => apply Ok_inj in H; subst
           end;
    match type of Hlines with
    | _ = _ :: ?l :: _ => remember (split l) as fields eqn:Hfields in *
    end;
    destruct fields as [|f0 [|total [|used [|free fs]]]];
    cbn [getitem nth_error] in *; try discriminate;
    repeat match goal with
           | H : Ok _ = Ok _ |- _ => apply Ok_inj in H; subst
           end;
    unfold is_int in Hbad;
    repeat match goal with
           | H : int ?s = Ok _, H' : context [int ?s] |- _ =>
               rewrite H in H'
           end;
    discriminate.
Qed.

(** C1, evaluated where it fails.  When the load-average probe prints
    text one of whose first three fields is missing or not a number, or
    [free -m] prints a second line one of whose columns total, used and
    free is missing or not an integer, the category returns no record at
    all: the exception leaves it, the cycle does not return [True] and
    nothing is written.  The cpu-usage probe, whose cast is guarded,
    loses only its own field on such text. *)
Theorem unguarded_parse_aborts_the_snapshot self w :
  (forall load_avg,
     snd (_run_remote_command self w "cat /proc/loadavg") = Ok (Some load_avg) ->
     load_average_garbled load_avg = true ->
     (forall metrics, snd (get_cpu_metrics self w) <> Ok metrics) /\
     snd (monitor_once self w) <> Ok true /\
     existsb is_write (fst (monitor_once self w)) = false) /\
  (forall mem_info,
     snd (_run_remote_command self w "free -m") = Ok (Some mem_info) ->
     memory_line_garbled mem_info = true ->
     (forall metrics, snd (get_memory_metrics self w) <> Ok metrics) /\
     snd (monitor_once self w) <> Ok true /\
     existsb is_write (fst (monitor_once self w)) = false) /\
  (match snd (get_cpu_metrics pi garbled_cpu_usage) with
   | Ok metrics =>
       keys metrics = ["load_average"; "cpu_temperature_c"; "cpu_frequency_hz"]
   | Raise _ => False
   end /\
   snd (monitor_once pi garbled_cpu_usage) = Ok true /\
   existsb is_write (fst (monitor_once pi garbled_cpu_usage)) = true).
Proof.
  split; [|split].
  - intros load_avg Hprobe Hbad.
    pose proof (garbled_load_average_raises _ _ _ Hprobe Hbad) as Hcpu.
    split; [exact Hcpu|].
    apply uncollected_cycle_is_lost. intros snapshot Hc.
    destruct (collect_all_metrics_inv _ _ _ Hc)
      as (sys & cpu & mem & disk & net & proc & logs
          & _ & Hcpu' & _).
    exact (Hcpu _ Hcpu').
  - intros mem_info Hprobe Hbad.
    pose proof (garbled_memory_line_raises _ _ _ Hprobe Hbad) as Hmem.
    split; [exact Hmem|].
    apply uncollected_cycle_is_lost. intros snapshot Hc.
    destruct (collect_all_metrics_inv _ _ _ Hc)
      as (sys & cpu & mem & disk & net & proc & logs
          & _ & _ & Hmem' & _).
    exact (Hmem _ Hmem').
  - repeat split; vm_compute; reflexivity.
Qed.

(** C1 at the two failing inputs: [n/a] from the load-average probe, and
    [n/a] in the used column of [free -m]. *)
Lemma unguarded_parse_at_garbled_outputs :
  snd (get_cpu_metrics pi garbled_loadavg) = Raise ValueError /\
  snd (monitor_once pi garbled_loadavg) = Ok false /\
  existsb is_write (fst (monitor_once pi garbled_loadavg)) = false /\
  snd (get_memory_metrics pi garbled_free) = Raise ValueError /\
  snd (monitor_once pi garbled_free) = Ok false /\
  existsb is_write (fst (monitor_once pi garbled_free)) = false.
Proof.
  destruct (unguarded_parse_aborts_the_snapshot pi garbled_loadavg)
    as (H1 & _ & _).
  destruct (unguarded_parse_aborts_the_snapshot pi garbled_free)
    as (_ & H2 & _).
  destruct (H1 "n/a") as (_ & _ & Hw1); [reflexivity | reflexivity |].
  destruct (H2 (strip (lines ["       total   used   free";
                              "Mem:    1024    n/a    512"])))
    as (_ & _ & Hw2); [reflexivity | reflexivity |].
  repeat split; try assumption; vm_compute; reflexivity.
Defined.



(** C5, evaluated where it fails.  When the failed-services probe
    succeeds and prints nothing, the record [get_process_metrics] returns
    has no [failed_services] field; and the field, when present, is never
    the empty list. *)
Theorem no_failed_services_omits_the_field self w metrics :
  snd (get_process_metrics self w) = Ok metrics ->
  (snd (_run_remote_command self w "systemctl --failed --no-legend")
     = Ok (Some "") ->
   get "failed_services" metrics = None) /\
  get "failed_services" metrics <> Some (VList []).
Proof.
  intros Hm. split.
  - intros Hprobe. revert metrics Hm.
    unfold get_process_metrics. cbv zeta. exec.
  - revert metrics Hm.
    destruct (snd (_run_remote_command self w "systemctl --failed --no-legend"))
      as [[out|]|e] eqn:Hprobe.
    + destruct (run_remote_command_trimmed _ _ _ _ Hprobe) as [Hstrip _].
      destruct out as [|c out]; unfold get_process_metrics; cbv zeta;
        exec;
        try match goal with
            | H : negb (is_empty (strip _)) = false |- _ =>
                rewrite Hstrip in H; discriminate H
            end;
        try (simpl; discriminate);
        pose proof (split_on_not_nil nl (String c out)) as Hne;
        (destruct (split_on nl (String c out)); [congruence|]);
        simpl; discriminate.
    + unfold get_process_metrics; cbv zeta. exec; simpl; discriminate.
    + unfold get_process_metrics; cbv zeta. exec.
Qed.

(** C5 at the healthy target, where no unit has failed. *)
Lemma no_failed_services_when_healthy :
  match snd (get_process_metrics pi healthy_world) with
  | Ok metrics => get "failed_services" metrics = None
  | Raise _ => False
  end.
Proof.
  destruct (snd (get_process_metrics pi healthy_world)) as [metrics|e] eqn:Hm;
    [|vm_compute in Hm; discriminate].
  destruct (no_failed_services_omits_the_field pi healthy_world metrics Hm)
    as [H1 _].
  apply H1. vm_compute. reflexivity.
Defined.

Lemma filter_none (A : Type) (p : A -> bool) (xs : list A) :
  Forall (fun x => p x = false) xs -> filter p xs = [].
Proof.
  induction 1 as [|x xs Hx _ IH]; simpl; [reflexivity|].
  rewrite Hx. exact IH.
Qed.

(** The temperature field is the float read from the probe's text once
    [temp=] and ['C] are removed. *)
Lemma cpu_temperature_parsed self w text t metrics :
  snd (_run_remote_command self w "vcgencmd measure_temp") = Ok (Some text) ->
  float (replace "'C" "" (replace "temp=" "" text)) = Ok t ->
  snd (get_cpu_metrics self w) = Ok metrics ->
  get "cpu_temperature_c" metrics = Some (VFloat t).
Proof.
  intros Hprobe Hfloat. revert metrics.
  destruct text as [|c text]; [vm_compute in Hfloat; discriminate|].
  unfold get_cpu_metrics. cbv zeta. exec.
Qed.

Lemma save_metrics_events self w snapshot :
  Forall (fun ev => is_warning ev = false) (fst (save_metrics self w snapshot)) /\
  forall path doc,
    In (Wrote path doc) (fst (save_metrics self w snapshot)) ->
    path = snapshot_path self w /\ doc = VDict snapshot.
Proof.
  rewrite save_metrics_eq. unfold opening.
  destruct (open_and_dump w _ _) as [e|]; [destruct (is_Exception e)|];
    try destruct (open_w w (snapshot_path self w));
    simpl; (split; [repeat constructor|]);
    intros path doc H;
    repeat (destruct H as [H|H]; try discriminate; try contradiction);
    inversion H; auto.
Qed.

Lemma warnings_are_warnings snapshot :
  filter is_warning (temperature_warning snapshot ++ memory_warning snapshot)
  = (temperature_warning snapshot ++ memory_warning snapshot)%list /\
  forall path doc,
    ~ In (Wrote path doc)
         (temperature_warning snapshot ++ memory_warning snapshot).
Proof.
  unfold temperature_warning, memory_warning.
  repeat match goal with
         | |- context [match ?x with _ => _ end] => destruct x
         end;
    simpl; (split; [reflexivity|]); intros path doc H;
    repeat (destruct H as [H|H]; try discriminate; try contradiction);
    contradiction.
Qed.

(** C4.  In a cycle that collects a snapshot and gets past the write,
    [monitor_once] logs, after the events of collection and of the write,
    the temperature warning and then the memory warning, each decided by
    its own field alone (above 70 degrees, above 90 percent), and these
    are all the warnings of the cycle; whatever is written is the
    snapshot as collected.  For the probe output [temp=75.0'C] the field
    is 75.0 and the temperature warning is logged; for [temp=65.0'C] the
    field is 65.0 and it is not.  At 75 degrees with 95 percent of the
    memory in use both warnings are logged, and the two are different
    records. *)
Theorem threshold_warnings_are_independent self w snapshot :
  snd (collect_all_metrics self w) = Ok snapshot ->
  snd (save_metrics self w snapshot) = Ok tt ->
  monitor_once self w =
    ((fst (collect_all_metrics self w) ++ fst (save_metrics self w snapshot)
      ++ temperature_warning snapshot ++ memory_warning snapshot)%list,
     Ok true) /\
  filter is_warning (fst (monitor_once self w)) =
    (temperature_warning snapshot ++ memory_warning snapshot)%list /\
  (forall path doc,
     In (Wrote path doc) (fst (monitor_once self w)) -> doc = VDict snapshot) /\
  (forall r,
     subprocess_run w (ssh_argv self "vcgencmd measure_temp") = Ok r ->
     returncode r = 0 ->
     strip (stdout r) = "temp=75.0'C" ->
     field snapshot "cpu_metrics" "cpu_temperature_c" = Some (VFloat 75) /\
     temperature_warning snapshot =
       [Logged WARNING (HighCPUTemperature (VFloat 75))]) /\
  (forall r,
     subprocess_run w (ssh_argv self "vcgencmd measure_temp") = Ok r ->
     returncode r = 0 ->
     strip (stdout r) = "temp=65.0'C" ->
     field snapshot "cpu_metrics" "cpu_temperature_c" = Some (VFloat 65) /\
     temperature_warning snapshot = []) /\
  filter is_warning (fst (monitor_once pi hot_and_full)) =
    [Logged WARNING (HighCPUTemperature (VFloat 75));
     Logged WARNING (HighMemoryUsage (VFloat 95))].
Proof.
  intros Hc Hs.
  assert (Honce : monitor_once self w =
    ((fst (collect_all_metrics self w) ++ fst (save_metrics self w snapshot)
      ++ temperature_warning snapshot ++ memory_warning snapshot)%list,
     Ok true))
    by (rewrite (monitor_once_collected _ _ _ Hc), Hs; reflexivity).
  destruct (save_metrics_events self w snapshot) as [Hsw Hsd].
  destruct (warnings_are_warnings snapshot) as [Hww Hwd].
  assert (Hfield : forall r text t,
             subprocess_run w (ssh_argv self "vcgencmd measure_temp") = Ok r ->
             returncode r = 0 ->
             strip (stdout r) = text ->
             float (replace "'C" "" (replace "temp=" "" text)) = Ok t ->
             field snapshot "cpu_metrics" "cpu_temperature_c" = Some (VFloat t)).
  { intros r text t Hrun Hrc Hout Hfloat.
    destruct (collect_all_metrics_inv _ _ _ Hc)
      as (sys & cpu & mem & disk & net & proc & logs
          & _ & Hcpu & _ & _ & _ & _ & _ & ->).
    unfold field. simpl get.
    eapply cpu_temperature_parsed; [|exact Hfloat|exact Hcpu].
    rewrite run_remote_command_eq, Hrun, Hrc, Hout. reflexivity. }
  split; [exact Honce|]. rewrite Honce. cbn [fst].
  split; [|split; [|split; [|split]]].
  - rewrite 2 filter_app, Hww.
    rewrite (filter_none _ _ _ Hsw).
    rewrite filter_none; [reflexivity|].
    eapply Forall_impl; [|apply collect_all_metrics_events].
    intros [[] []|?|? ?|?]; simpl; congruence.
  - intros path doc Hin.
    apply in_app_or in Hin. destruct Hin as [Hin|Hin].
    + exfalso.
      pose proof (collect_all_metrics_events self w) as Hev.
      rewrite Forall_forall in Hev. specialize (Hev _ Hin). discriminate.
    + apply in_app_or in Hin. destruct Hin as [Hin|Hin].
      * apply (Hsd _ _ Hin).
      * destruct (Hwd _ _ Hin).
  - intros r Hrun Hrc Hout.
    assert (Hf : field snapshot "cpu_metrics" "cpu_temperature_c"
                 = Some (VFloat 75))
      by (eapply Hfield; eauto; vm_compute; reflexivity).
    split; [exact Hf|]. unfold temperature_warning. rewrite Hf. reflexivity.
  - intros r Hrun Hrc Hout.
    assert (Hf : field snapshot "cpu_metrics" "cpu_temperature_c"
                 = Some (VFloat 65))
      by (eapply Hfield; eauto; vm_compute; reflexivity).
    split; [exact Hf|]. unfold temperature_warning. rewrite Hf. reflexivity.
  - vm_compute. reflexivity.
Qed.

(** C4 at 75 degrees, and at the healthy target's 65. *)
Lemma threshold_warnings_when_hot :
  filter is_warning (fst (monitor_once pi hot)) =
    [Logged WARNING (HighCPUTemperature (VFloat 75))] /\
  filter is_warning (fst (monitor_once pi healthy_world)) = [].
Proof.
  assert (Hhot : exists s, snd (collect_all_metrics pi hot) = Ok s)
    by (eexists; vm_compute; reflexivity).
  assert (Hcool : exists s, snd (collect_all_metrics pi healthy_world) = Ok s)
    by (eexists; vm_compute; reflexivity).
  destruct Hhot as [s1 H1]. destruct Hcool as [s2 H2].
  split.
  - destruct (threshold_warnings_are_independent pi hot s1 H1)
      as (_ & Hw & _ & H75 & _).
    + rewrite save_metrics_eq. reflexivity.
    + rewrite Hw.
      destruct (H75 {| returncode := 0; stdout := "temp=75.0'C"; stderr := "" |})
        as [_ ->]; try reflexivity.
      assert (Hm : memory_warning s1 = []).
      { vm_compute in H1. apply Ok_inj in H1. subst s1. reflexivity. }
      rewrite Hm. reflexivity.
  - destruct (threshold_warnings_are_independent pi healthy_world s2 H2)
      as (_ & Hw & _ & _ & H65 & _).
    + rewrite save_metrics_eq. reflexivity.
    + rewrite Hw.
      destruct (H65 {| returncode := 0; stdout := "temp=65.0'C"; stderr := "" |})
        as [_ ->]; try reflexivity.
      vm_compute in H2. apply Ok_inj in H2. subst s2. reflexivity.
Defined.

(* ================================================================= *)
(** ** The scheduling loop *)

Lemma monitor_once_events self w :
  Forall (fun ev => is_retry_notice ev = false) (fst (monitor_once self w)).
Proof.
  assert (Hcollect : Forall (fun ev => is_retry_notice ev = false)
                       (fst (collect_all_metrics self w))).
  { eapply Forall_impl; [|apply collect_all_metrics_events].
    intros [[] []|?|? ?|?]; simpl; congruence. }
  destruct (snd (collect_all_metrics self w)) as [snapshot|e] eqn:Hc.
  - rewrite (monitor_once_collected _ _ _ Hc), save_metrics_eq.
    assert (Htw : Forall (fun ev => is_retry_notice ev = false)
                    (temperature_warning snapshot)).
    { unfold temperature_warning.
      repeat match goal with
             | |- context [match ?x with _ => _ end] => destruct x
             end; repeat constructor. }
    assert (Hmw : Forall (fun ev => is_retry_notice ev = false)
                    (memory_warning snapshot)).
    { unfold memory_warning.
      repeat match goal with
             | |- context [match ?x with _ => _ end] => destruct x
             end; repeat constructor. }
    unfold opening.
    destruct (open_and_dump w _ _) as [e|]; [destruct e|];
      try destruct (open_w w (snapshot_path self w));
      cbn [fst snd is_Exception];
      repeat (apply Forall_app; split); auto; repeat constructor.
  - rewrite (monitor_once_not_collected _ _ _ Hc).
    destruct (is_Exception e); cbn [fst]; auto.
    apply Forall_app; split; auto.
Qed.

Lemma iteration_events_notices self interval w :
  filter is_retry_notice (iteration_events self interval w) =
  match snd (monitor_once self w) with
  | Ok false => [Logged ERROR CycleFailedWillRetry]
  | _ => []
  end.
Proof.
  unfold iteration_events.
  rewrite filter_app, (filter_none _ _ _ (monitor_once_events self w)).
  destruct (snd (monitor_once self w)) as [[|]|e]; reflexivity.
Qed.

(** An iteration that nothing interrupts sleeps and goes round again. *)
Lemma loop_iteration_calm self w interval :
  0 <= interval ->
  no_interrupt w ->
  sleep_in_try w = None ->
  loop_iteration self w interval = (iteration_events self interval w, Ok true).
Proof.
  intros Hi Hw Hsleep.
  destruct (monitor_once_returns self w Hw) as [b Hb].
  unfold loop_iteration, iteration_events, time_sleep.
  destruct (monitor_once self w) as [evs r]. simpl in Hb. subst r.
  rewrite Hsleep.
  destruct (Z.ltb_spec interval 0); [lia|].
  destruct b; reflexivity.
Qed.

(** An iteration an interrupt reaches logs the stop and breaks. *)
Lemma loop_iteration_interrupted self w interval :
  0 <= interval ->
  interrupted self w ->
  exists evs,
    loop_iteration self w interval =
    ((evs ++ [Logged INFO MonitoringStoppedByUser])%list, Ok false).
Proof.
  intros Hi [Hcycle|[[b Hb] Hsleep]];
    unfold loop_iteration, time_sleep;
    destruct (monitor_once self w) as [evs r]; simpl in *; subst r.
  - exists evs. reflexivity.
  - rewrite Hsleep. destruct (Z.ltb_spec interval 0); [lia|].
    destruct b; cbn.
    + exists evs. rewrite app_nil_r. reflexivity.
    + exists (evs ++ [Logged ERROR CycleFailedWillRetry])%list.
      rewrite <- !app_assoc. reflexivity.
Qed.

Lemma loop_calm self interval worlds :
  0 <= interval ->
  forall n i,
    (forall j, (i <= j < i + n)%nat ->
               no_interrupt (worlds j) /\ sleep_in_try (worlds j) = None) ->
    loop self interval worlds i n =
    (flat_map (fun j => iteration_events self interval (worlds j)) (seq i n),
     Looping).
Proof.
  intros Hi. induction n as [|n IH]; intros i Hcalm; [reflexivity|].
  destruct (Hcalm i) as [Hw Hs]; [lia|].
  cbn [loop seq flat_map].
  rewrite (loop_iteration_calm _ _ _ Hi Hw Hs), IH; [reflexivity|].
  intros j Hj. apply Hcalm. lia.
Qed.

Lemma loop_interrupted self interval worlds k :
  0 <= interval ->
  interrupted self (worlds k) ->
  forall n i,
    (i <= k < i + n)%nat ->
    (forall j, (i <= j < k)%nat ->
               no_interrupt (worlds j) /\ sleep_in_try (worlds j) = None) ->
    exists evs,
      loop self interval worlds i n =
      ((evs ++ [Logged INFO MonitoringStoppedByUser])%list, Returned).
Proof.
  intros Hi Hk. induction n as [|n IH]; intros i Hik Hcalm; [lia|].
  cbn [loop].
  destruct (Nat.eq_dec i k) as [->|Hne].
  - destruct (loop_iteration_interrupted _ _ _ Hi Hk) as [evs ->].
    exists evs. reflexivity.
  - destruct (Hcalm i) as [Hw Hs]; [lia|].
    rewrite (loop_iteration_calm _ _ _ Hi Hw Hs).
    destruct (IH (S i)) as [evs ->]; [lia | intros j Hj; apply Hcalm; lia |].
    exists (iteration_events self interval (worlds i) ++ evs)%list.
    rewrite <- app_assoc. reflexivity.
Qed.

Lemma notices_counted self interval worlds (js : list nat) :
  Forall (fun j => snd (monitor_once self (worlds j)) = Ok false) js ->
  List.length
    (filter is_retry_notice
       (flat_map (fun j => iteration_events self interval (worlds j)) js))
  = List.length js.
Proof.
  induction 1 as [|j js Hj _ IH]; [reflexivity|].
  cbn [flat_map]. rewrite filter_app, length_app, IH.
  rewrite iteration_events_notices, Hj. reflexivity.
Qed.

Lemma world_of_no_interrupt answers :
  (forall command, answers command <> Raise KeyboardInterrupt) ->
  no_interrupt (world_of answers).
Proof. intros H. split; [intros argv; apply H | discriminate]. Qed.

Lemma healthy_never_raises command e : healthy command <> Raise e.
Proof.
  unfold healthy, table. destruct (find _ _); discriminate.
Qed.

Lemma garbled_loadavg_no_interrupt : no_interrupt garbled_loadavg.
Proof.
  apply world_of_no_interrupt. intros command. unfold answering.
  destruct (String.eqb _ _); [discriminate | apply healthy_never_raises].
Qed.

(** Collection, the write and the warnings log no failed cycle. *)
Lemma warnings_no_failed_cycle snapshot :
  Forall (fun ev => is_failed_cycle_entry ev = false)
    (temperature_warning snapshot ++ memory_warning snapshot).
Proof.
  unfold temperature_warning, memory_warning.
  repeat match goal with
         | |- context [match ?x with _ => _ end] => destruct x
         end; repeat constructor.
Qed.

Lemma save_metrics_no_failed_cycle self w snapshot :
  Forall (fun ev => is_failed_cycle_entry ev = false)
    (fst (save_metrics self w snapshot)).
Proof.
  rewrite save_metrics_eq. unfold opening.
  destruct (open_and_dump w _ _) as [e|]; [destruct (is_Exception e)|];
    try destruct (open_w w (snapshot_path self w));
    repeat constructor.
Qed.

Lemma collect_all_metrics_no_failed_cycle self w :
  Forall (fun ev => is_failed_cycle_entry ev = false)
    (fst (collect_all_metrics self w)).
Proof.
  eapply Forall_impl; [|apply collect_all_metrics_events].
  intros [[] []|?|? ?|?]; unfold is_failed_cycle_entry; simpl; congruence.
Qed.

(** The failed-cycle records of one cycle: the one of the cycle boundary,
    when collection raised an exception of class [Exception]. *)
Lemma monitor_once_failed_cycle self w :
  filter is_failed_cycle_entry (fst (monitor_once self w)) =
  match snd (collect_all_metrics self w) with
  | Ok _ => []
  | Raise e =>
      if is_Exception e then [Logged ERROR (MonitoringCycleFailed e)] else []
  end.
Proof.
  pose proof (collect_all_metrics_no_failed_cycle self w) as Hc.
  destruct (snd (collect_all_metrics self w)) as [snapshot|e] eqn:Hs.
  - apply filter_none. rewrite (monitor_once_collected _ _ _ Hs).
    pose proof (save_metrics_no_failed_cycle self w snapshot) as Hsave.
    pose proof (warnings_no_failed_cycle snapshot) as Hw.
    destruct (snd (save_metrics self w snapshot)); cbn [fst];
      repeat (apply Forall_app; split); auto;
      apply Forall_app in Hw; tauto.
  - rewrite (monitor_once_not_collected _ _ _ Hs).
    destruct (is_Exception e); cbn [fst];
      rewrite ?filter_app, (filter_none _ _ _ Hc); reflexivity.
Qed.

(** A cycle fails exactly when an exception of class [Exception] leaves
    collection. *)
Lemma monitor_once_fails_iff self w :
  snd (monitor_once self w) = Ok false <->
  exists e, snd (collect_all_metrics self w) = Raise e /\ is_Exception e = true.
Proof.
  destruct (snd (collect_all_metrics self w)) as [snapshot|e] eqn:Hs.
  - rewrite (monitor_once_collected _ _ _ Hs).
    split.
    + destruct (snd (save_metrics self w snapshot)); discriminate.
    + intros (e & He & _). discriminate.
  - rewrite (monitor_once_not_collected _ _ _ Hs).
    destruct (is_Exception e) eqn:He; cbn [snd]; split.
    + intros _. exists e. split; [reflexivity | exact He].
    + reflexivity.
    + discriminate.
    + intros (e' & [= <-] & He'). congruence.
Qed.

Lemma save_metrics_raises self w snapshot e :
  snd (save_metrics self w snapshot) = Raise e -> e = KeyboardInterrupt.
Proof.
  rewrite save_metrics_eq.
  destruct (open_and_dump w _ _) as [e'|]; [|discriminate].
  destruct e'; cbn; intros [= <-]; reflexivity.
Qed.

Lemma iteration_events_failed_cycle self interval w :
  filter is_failed_cycle_entry (iteration_events self interval w) =
  failed_cycle_entries self w.
Proof.
  unfold iteration_events, failed_cycle_entries.
  rewrite filter_app, monitor_once_failed_cycle.
  destruct (snd (collect_all_metrics self w)) as [snapshot|e] eqn:Hs.
  - rewrite (monitor_once_collected _ _ _ Hs).
    destruct (snd (save_metrics self w snapshot)); reflexivity.
  - rewrite (monitor_once_not_collected _ _ _ Hs).
    destruct (is_Exception e); reflexivity.
Qed.

Lemma failed_cycle_entries_of_loop self interval worlds (js : list nat) :
  filter is_failed_cycle_entry
    (flat_map (fun j => iteration_events self interval (worlds j)) js) =
  flat_map (fun j => failed_cycle_entries self (worlds j)) js.
Proof.
  induction js as [|j js IH]; [reflexivity|].
  cbn [flat_map]. rewrite filter_app, IH, iteration_events_failed_cycle.
  reflexivity.
Qed.

Lemma iteration_events_failures self interval w :
  snd (monitor_once self w) = Ok false ->
  List.length (filter is_cycle_failure (iteration_events self interval w)) = 1%nat.
Proof.
  intros Hfail. unfold iteration_events. rewrite Hfail.
  apply monitor_once_fails_iff in Hfail. destruct Hfail as (e & Hc & He).
  rewrite (monitor_once_not_collected _ _ _ Hc), He. cbn [fst].
  rewrite !filter_app, filter_none; [reflexivity|].
  eapply Forall_impl; [|apply collect_all_metrics_events].
  intros [[] []|?|? ?|?]; simpl; congruence.
Qed.

Lemma failures_counted self interval worlds (js : list nat) :
  Forall (fun j => snd (monitor_once self (worlds j)) = Ok false) js ->
  List.length
    (filter is_cycle_failure
       (flat_map (fun j => iteration_events self interval (worlds j)) js))
  = List.length js.
Proof.
  induction 1 as [|j js Hj _ IH]; [reflexivity|].
  cbn [flat_map]. rewrite filter_app, length_app, IH.
  rewrite (iteration_events_failures _ _ _ Hj). reflexivity.
Qed.

Lemma flat_map_nil (A B : Type) (f : A -> list B) (xs : list A) :
  (forall x, f x = []) -> flat_map f xs = [].
Proof.
  intros H. induction xs as [|x xs IH]; [reflexivity|].
  cbn [flat_map]. rewrite H, IH. reflexivity.
Qed.

Lemma flat_map_length_const (A B : Type) (f : A -> list B) (k : nat)
  (xs : list A) :
  (forall x, List.length (f x) = k) ->
  List.length (flat_map f xs) = (k * List.length xs)%nat.
Proof.
  intros H. induction xs as [|x xs IH]; cbn [flat_map List.length]; [lia|].
  rewrite length_app, H, IH. lia.
Qed.

(** C7, as amended.  For a non-negative interval.  Exceptions of class
    [Exception] are caught in three places: those of the remote
    execution in [_run_remote_command] and those of the write in
    [save_metrics], neither of which fails the cycle, and those that
    leave collection at the cycle boundary in [monitor_once], which logs
    them and returns [False]: this is the only way a cycle fails, and
    nothing but an interrupt leaves [monitor_once].  As long as no
    interrupt arrives and the sleeps complete, the loop is still running
    after any number of iterations, each of which leaves the events of
    its cycle, one retry notice if the cycle failed, and one sleep; the
    failed-cycle records of an iteration are the record of the cycle
    boundary followed by the retry notice when its collection raised, and
    none otherwise, so that cycles that all fail leave one record of each
    kind per iteration, and cycles whose probes all fail at the executor
    leave none.  The first iteration an interrupt reaches, in the cycle
    or in the sleep, logs the stop and leaves the loop through
    [break]. *)
Theorem loop_outlives_failed_cycles self interval worlds :
  0 <= interval ->
  (forall w command e,
     snd (_run_remote_command self w command) = Raise e ->
     e = KeyboardInterrupt) /\
  (forall w snapshot e,
     snd (save_metrics self w snapshot) = Raise e -> e = KeyboardInterrupt) /\
  (forall w e, snd (monitor_once self w) = Raise e -> e = KeyboardInterrupt) /\
  (forall w,
     snd (monitor_once self w) = Ok false <->
     exists e,
       snd (collect_all_metrics self w) = Raise e /\ is_Exception e = true) /\
  (forall w e,
     snd (collect_all_metrics self w) = Raise e ->
     is_Exception e = true ->
     monitor_once self w =
     ((fst (collect_all_metrics self w)
       ++ [Logged ERROR (MonitoringCycleFailed e)])%list, Ok false)) /\
  ((forall i, no_interrupt (worlds i) /\ sleep_in_try (worlds i) = None) ->
   forall n,
     monitor_continuous self interval worlds n =
     (Logged INFO (StartingContinuousMonitoring interval)
      :: flat_map (fun i => iteration_events self interval (worlds i)) (seq 0 n),
      Looping) /\
     filter is_failed_cycle_entry
       (fst (monitor_continuous self interval worlds n)) =
     flat_map (fun i => failed_cycle_entries self (worlds i)) (seq 0 n) /\
     ((forall i, snd (monitor_once self (worlds i)) = Ok false) ->
      List.length
        (filter is_cycle_failure (fst (monitor_continuous self interval worlds n)))
      = n /\
      List.length
        (filter is_retry_notice (fst (monitor_continuous self interval worlds n)))
      = n) /\
     ((forall i argv, run_failed (subprocess_run (worlds i) argv) = true) ->
      filter is_failed_cycle_entry
        (fst (monitor_continuous self interval worlds n)) = [])) /\
  (forall k,
     (forall i, (i < k)%nat ->
                no_interrupt (worlds i) /\ sleep_in_try (worlds i) = None) ->
     interrupted self (worlds k) ->
     forall n, (k < n)%nat ->
     exists evs,
       monitor_continuous self interval worlds n =
       ((evs ++ [Logged INFO MonitoringStoppedByUser])%list, Returned)).
Proof.
  intros Hi. split; [|split; [|split; [|split; [|split; [|split]]]]].
  - intros w command e H.
    apply (run_remote_command_raise self w command
             (fst (_run_remote_command self w command))).
    rewrite <- H. apply pair_eta.
  - intros w snapshot e. apply save_metrics_raises.
  - intros w e. apply monitor_once_raises.
  - intros w. apply monitor_once_fails_iff.
  - intros w e Hc He. rewrite (monitor_once_not_collected _ _ _ Hc), He.
    reflexivity.
  - intros Hcalm n.
    assert (Hloop : monitor_continuous self interval worlds n =
      (Logged INFO (StartingContinuousMonitoring interval)
       :: flat_map (fun i => iteration_events self interval (worlds i)) (seq 0 n),
       Looping)).
    { unfold monitor_continuous. rewrite (loop_calm _ _ _ Hi); [reflexivity|].
      intros j _. apply Hcalm. }
    assert (Hentries :
      filter is_failed_cycle_entry
        (fst (monitor_continuous self interval worlds n)) =
      flat_map (fun i => failed_cycle_entries self (worlds i)) (seq 0 n)).
    { rewrite Hloop. cbn [fst filter is_failed_cycle_entry is_cycle_failure
                          is_retry_notice orb].
      apply failed_cycle_entries_of_loop. }
    split; [exact Hloop|]. split; [exact Hentries|]. split.
    + intros Hfail. rewrite Hloop.
      cbn [fst filter is_retry_notice is_cycle_failure].
      split.
      * rewrite failures_counted; [apply length_seq|].
        apply Forall_forall. intros j _. apply Hfail.
      * rewrite notices_counted; [apply length_seq|].
        apply Forall_forall. intros j _. apply Hfail.
    + intros Hall. rewrite Hentries. apply flat_map_nil. intros i.
      unfold failed_cycle_entries.
      rewrite (collect_all_metrics_unanswered self (worlds i)); [reflexivity|].
      intros command. apply run_remote_command_failed, Hall.
  - intros k Hcalm Hk n Hn. unfold monitor_continuous.
    destruct (loop_interrupted self interval worlds k Hi Hk n 0%nat) as [evs ->];
      [lia | intros j Hj; apply Hcalm; lia |].
    exists (Logged INFO (StartingContinuousMonitoring interval) :: evs).
    reflexivity.
Qed.

(** The amended C7 for cycles that all fail on the load average, three
    iterations at 300 seconds. *)
Lemma loop_outlives_garbled_loadavg :
  snd (monitor_continuous pi 300 (fun _ => garbled_loadavg) 3) = Looping /\
  List.length
    (filter is_cycle_failure
       (fst (monitor_continuous pi 300 (fun _ => garbled_loadavg) 3))) = 3%nat /\
  List.length
    (filter is_retry_notice
       (fst (monitor_continuous pi 300 (fun _ => garbled_loadavg) 3))) = 3%nat.
Proof.
  destruct (loop_outlives_failed_cycles pi 300 (fun _ => garbled_loadavg))
    as (_ & _ & _ & _ & _ & H & _); [lia|].
  destruct (H (fun _ => conj garbled_loadavg_no_interrupt eq_refl) 3%nat)
    as (Hloop & _ & Hcount & _).
  split; [rewrite Hloop; reflexivity|].
  apply Hcount. intros _. vm_compute. reflexivity.
Defined.

(** C7, as stated, fails in four ways.  For a negative interval
    [time.sleep] raises [ValueError], the handler of the loop logs it and
    calls [time.sleep] again, and the second [ValueError] leaves
    [monitor_continuous]: the loop ends after one failed cycle although no
    interrupt arrived.  An exception raised by the write is caught in
    [save_metrics], not at the cycle boundary, and the cycle is not a
    failed one.  When every probe fails at the executor on every cycle,
    the loop runs on and leaves no failed-cycle record at all.  And when
    every cycle fails, each interval leaves two failed-cycle records, not
    one. *)
Lemma cycle_boundary_counterexamples :
  (no_interrupt garbled_loadavg /\
   sleep_in_try garbled_loadavg = None /\
   sleep_in_handler garbled_loadavg = None /\
   snd (monitor_once pi garbled_loadavg) = Ok false /\
   snd (monitor_continuous pi (-1) (fun _ => garbled_loadavg) 1)
     = Escaped ValueError) /\
  ((forall filename doc, json_dump disk_full filename doc = Some OSError) /\
   In (Logged ERROR (FailedToSaveMetrics OSError))
      (fst (monitor_once pi disk_full)) /\
   snd (monitor_once pi disk_full) = Ok true /\
   filter is_failed_cycle_entry
     (fst (monitor_continuous pi 300 (fun _ => disk_full) 3)) = []) /\
  ((forall argv, run_failed (subprocess_run unreachable argv) = true) /\
   snd (monitor_continuous pi 300 (fun _ => unreachable) 3) = Looping /\
   filter is_failed_cycle_entry
     (fst (monitor_continuous pi 300 (fun _ => unreachable) 3)) = []) /\
  filter is_failed_cycle_entry
    (fst (monitor_continuous pi 300 (fun _ => garbled_loadavg) 3)) =
  [Logged ERROR (MonitoringCycleFailed ValueError);
   Logged ERROR CycleFailedWillRetry;
   Logged ERROR (MonitoringCycleFailed ValueError);
   Logged ERROR CycleFailedWillRetry;
   Logged ERROR (MonitoringCycleFailed ValueError);
   Logged ERROR CycleFailedWillRetry].
Proof.
  split; [|split; [|split]].
  - split; [apply garbled_loadavg_no_interrupt|].
    repeat split; vm_compute; reflexivity.
  - split; [intros filename doc; reflexivity|].
    split; [vm_compute; tauto|].
    split; vm_compute; reflexivity.
  - split; [intros argv; reflexivity|].
    split; vm_compute; reflexivity.
  - vm_compute. reflexivity.
Qed.

(* ================================================================= *)
(** * Further properties of the monitor *)

(* ================================================================= *)
(** ** Further properties of the executor *)


Lemma lstrip_by_shorter p s :
  (String.length (lstrip_by p s) <= String.length s)%nat.
Proof.
  induction s as [|c s IH]; simpl; [lia|]. destruct (p c); simpl; lia.
Qed.

Lemma lstrip_by_head p c s : lstrip_by p (String c s) = String c s -> p c = false.
Proof.
  simpl. destruct (p c); [|reflexivity].
  intros H. pose proof (lstrip_by_shorter p s) as Hlen.
  rewrite H in Hlen. simpl in Hlen. lia.
Qed.

(** X2.  The text [_run_remote_command] returns is trimmed: it does not
    begin with white space, and stripping it again on either side, or on
    both, changes nothing. *)
Theorem executor_output_is_trimmed self w command out :
  snd (_run_remote_command self w command) = Ok (Some out) ->
  strip out = out /\
  lstrip_by isspace out = out /\
  rstrip_by isspace out = out /\
  (forall c rest, out = String c rest -> isspace c = false).
Proof.
  intros H.
  destruct (run_remote_command_some self w command
              (fst (_run_remote_command self w command)) out)
    as (r & _ & _ & -> & _); [rewrite <- H; apply pair_eta|].
  assert (Hl : lstrip_by isspace (strip (stdout r)) = strip (stdout r)).
  { unfold strip, strip_by. apply lstrip_by_fixed, lstrip_by_idempotent. }
  split; [apply strip_idempotent|]. split; [exact Hl|].
  split; [apply rstrip_by_idempotent|].
  intros c rest Hout. rewrite Hout in Hl. exact (lstrip_by_head _ _ _ Hl).
Qed.

(** X2 at the uptime probe of the healthy target, whose output begins
    with a blank. *)
Lemma executor_output_is_trimmed_uptime :
  match snd (_run_remote_command pi healthy_world "uptime") with
  | Ok (Some out) => strip out = out
  | _ => False
  end.
Proof.
  destruct (snd (_run_remote_command pi healthy_world "uptime"))
    as [[out|]|e] eqn:H; try (vm_compute in H; discriminate).
  exact (proj1 (executor_output_is_trimmed pi healthy_world "uptime" out H)).
Defined.

(* ================================================================= *)
(** ** Probes that answer with nothing *)

Lemma blank_output_in_category self w command name :
  snd (_run_remote_command self w command) = Ok (Some "") ->
  (In ("system_info", command, name) probes ->
   forall d, snd (get_system_info self w) = Ok d -> get name d = None) /\
  (In ("cpu_metrics", command, name) probes ->
   forall d, snd (get_cpu_metrics self w) = Ok d -> get name d = None) /\
  (In ("memory_metrics", command, name) probes ->
   forall d, snd (get_memory_metrics self w) = Ok d -> get name d = None) /\
  (In ("disk_metrics", command, name) probes ->
   forall d, snd (get_disk_metrics self w) = Ok d -> get name d = None) /\
  (In ("network_metrics", command, name) probes ->
   forall d, snd (get_network_metrics self w) = Ok d ->
             get name d =
             if String.eqb command ping then Some (VBool false) else None) /\
  (In ("process_metrics", command, name) probes ->
   forall d, snd (get_process_metrics self w) = Ok d -> get name d = None) /\
  (In ("log_errors", command, name) probes ->
   forall d, snd (get_log_errors self w) = Ok d -> get name d = None).
Proof.
  intros Hblank. repeat split; intros Hin; by_probe Hin.
  all: try (unfold get_system_info; cbv zeta; exec; fail).
  all: try (unfold get_cpu_metrics; cbv zeta; exec; fail).
  all: try (unfold get_memory_metrics, memory_usage, swap_usage; cbv zeta;
            exec; fail).
  all: try (unfold get_disk_metrics; cbv zeta; exec; fail).
  all: try (unfold get_process_metrics; cbv zeta; exec; fail).
  all: try (unfold get_log_errors; cbv zeta; exec; fail).
  all: match goal with
       | |- context [String.eqb ?c ?p] =>
           let b := eval vm_compute in (String.eqb c p) in
           change (String.eqb c p) with b
       end; cbv iota; unfold get_network_metrics; cbv zeta; exec.
Qed.

(** X3.  A probe that succeeds and prints nothing but white space leaves
    the snapshot as a failed probe does: its field is absent from its
    category, except the connectivity field, which is present and false. *)
Theorem blank_output_is_like_failure self w category command name snapshot :
  In (category, command, name) probes ->
  snd (_run_remote_command self w command) = Ok (Some "") ->
  snd (collect_all_metrics self w) = Ok snapshot ->
  field snapshot category name =
  if String.eqb command ping then Some (VBool false) else None.
Proof.
  intros Hin Hblank Hc.
  destruct (collect_all_metrics_inv _ _ _ Hc)
    as (sys & cpu & mem & disk & net & proc & logs
        & Hsys & Hcpu & Hmem & Hdisk & Hnet & Hproc & Hlogs & ->).
  destruct (blank_output_in_category self w command name Hblank)
    as (B1 & B2 & B3 & B4 & B5 & B6 & B7).
  pose proof Hin as Hin'. simpl in Hin'.
  repeat (destruct Hin' as [Hin'|Hin'];
          [inversion Hin'; subst; clear Hin'|]);
    try contradiction; unfold field; simpl get;
    try (apply (B5 Hin _ Hnet));
    match goal with
    | |- context [String.eqb ?c ?p] =>
        let b := eval vm_compute in (String.eqb c p) in
        change (String.eqb c p) with b
    end; cbv iota;
    first [ apply (B1 Hin _ Hsys) | apply (B2 Hin _ Hcpu)
          | apply (B3 Hin _ Hmem) | apply (B4 Hin _ Hdisk)
          | apply (B6 Hin _ Hproc) | apply (B7 Hin _ Hlogs) ].
Qed.

(** X3 at the healthy target, whose kernel log holds no error. *)
Lemma blank_output_no_kernel_errors :
  match snd (collect_all_metrics pi healthy_world) with
  | Ok snapshot => field snapshot "log_errors" "recent_kernel_errors" = None
  | Raise _ => False
  end.
Proof.
  destruct (snd (collect_all_metrics pi healthy_world)) as [snapshot|e] eqn:Hc;
    [|vm_compute in Hc; discriminate].
  apply (blank_output_is_like_failure pi healthy_world "log_errors"
           "dmesg | grep -i error | tail -10" "recent_kernel_errors" snapshot);
    [simpl; tauto | reflexivity | exact Hc].
Defined.

(* ================================================================= *)
(** ** Lines and fields *)

Lemma length_split_on sep s :
  List.length (split_on sep s) = S (count_char sep s).
Proof.
  induction s as [|c s IH]; simpl; [reflexivity|].
  destruct (Ascii.eqb c sep); simpl; [rewrite IH; reflexivity|].
  destruct (split_on sep s); simpl in *; [discriminate | exact IH].
Qed.

Lemma getitem_ok (A : Type) (xs : list A) i x :
  getitem xs i = Ok x -> (i < List.length xs)%nat /\ nth_error xs i = Some x.
Proof.
  unfold getitem. destruct (nth_error xs i) eqn:H; [|discriminate].
  intros [= <-]. split; [|reflexivity].
  apply nth_error_Some. rewrite H. discriminate.
Qed.

Lemma run_remote_command_interrupt self w command e :
  snd (_run_remote_command self w command) = Raise e -> e = KeyboardInterrupt.
Proof.
  intros H.
  apply (run_remote_command_raise self w command
           (fst (_run_remote_command self w command))).
  rewrite <- H. apply pair_eta.
Qed.

Lemma Raise_inj (A : Type) (e e' : exn) : @Raise A e = Raise e' -> e = e'.
Proof. congruence. Qed.

(** Close a branch in which the exception found comes from a probe. *)
Ltac from_probe :=
  match goal with
  | H : snd (_run_remote_command _ _ _) = Raise ?e |- _ =>
      apply run_remote_command_interrupt in H; subst e
  end.

(* ================================================================= *)
(** ** System information *)

(** X4.  [get_system_info] takes the OS name from between the first and
    the second equals sign of the probe's output, without surrounding
    double quotes; when the output has no equals sign it returns no
    record at all.  Whatever the probes print, it raises nothing but
    [IndexError] and an interrupt. *)
Theorem os_version_needs_an_equals_sign self w text :
  snd (_run_remote_command self w "cat /etc/os-release | grep PRETTY_NAME")
    = Ok (Some text) ->
  text <> "" ->
  (count_char "=" text = 0%nat ->
   forall info, snd (get_system_info self w) <> Ok info) /\
  (forall info,
     snd (get_system_info self w) = Ok info ->
     get "os_version" info =
     Some (VStr (strip_char dquote (nth 1 (split_on "=" text) "")))) /\
  (forall e,
     snd (get_system_info self w) = Raise e ->
     e = IndexError \/ e = KeyboardInterrupt).
Proof.
  intros Hprobe Hne.
  destruct text as [|c text]; [contradiction|].
  split; [|split].
  - intros Hcount info. unfold get_system_info. cbv zeta.
    repeat exec_step; try discriminate.
    all: match goal with
         | H : getitem _ _ = Ok _ |- _ =>
             apply getitem_ok in H; destruct H as [Hlt _];
             rewrite length_split_on in Hlt; exfalso; lia
         end.
  - intros info. unfold get_system_info. cbv zeta.
    repeat exec_step; intros; try discriminate;
      match goal with
      | H : Ok _ = Ok _ |- _ => apply Ok_inj in H; subst
      end;
      match goal with
      | H : getitem _ _ = Ok _ |- _ =>
          apply getitem_ok in H; destruct H as [_ H];
          rewrite (nth_error_nth _ _ "" H)
      end; reflexivity.
  - intros e. unfold get_system_info. cbv zeta.
    repeat exec_step; intros; try discriminate;
      match goal with
      | H : Raise _ = Raise _ |- _ => apply Raise_inj in H; subst
      end;
      first [ from_probe; right; reflexivity
            | match goal with
              | H : getitem _ _ = Raise _ |- _ =>
                  apply getitem_raises in H; left; exact H
              end ].
Qed.

(** X4 where the matching line of [/etc/os-release] is a comment. *)
Lemma os_version_without_equals_sign :
  match snd (get_system_info pi os_release_without_equals) with
  | Ok _ => False
  | Raise e => e = IndexError \/ e = KeyboardInterrupt
  end.
Proof.
  destruct (os_version_needs_an_equals_sign pi os_release_without_equals
              "# PRETTY_NAME is set below") as (H1 & _ & H3);
    [reflexivity | discriminate |].
  destruct (snd (get_system_info pi os_release_without_equals)) as [info|e] eqn:E.
  - exact (H1 eq_refl info eq_refl).
  - exact (H3 e eq_refl).
Defined.

(* ================================================================= *)
(** ** Guarded and unguarded casts *)

(** The exception a built-in raised is known by its class. *)
Ltac known_exception :=
  match goal with
  | H : float _ = Raise ?e |- _ => is_var e; apply float_raises in H; subst e
  | H : int _ = Raise ?e |- _ => is_var e; apply int_raises in H; subst e
  | H : getitem _ _ = Raise ?e |- _ =>
      is_var e; apply getitem_raises in H; subst e
  | H : snd (_run_remote_command _ _ _) = Raise ?e |- _ =>
      is_var e; apply run_remote_command_interrupt in H; subst e
  | |- context [exn_eqb ?a ?b] =>
      let v := eval cbv in (exn_eqb a b) in
      lazymatch v with
      | true => change (exn_eqb a b) with true
      | false => change (exn_eqb a b) with false
      end
  | |- context [orb ?a ?b] =>
      let v := eval cbv in (orb a b) in
      lazymatch v with
      | true => change (orb a b) with true
      | false => change (orb a b) with false
      end
  end.

Ltac run := repeat first [known_exception | exec_step].

Lemma is_float_false s : is_float s = false -> float s = Raise ValueError.
Proof.
  unfold is_float. destruct (float s) as [x|e] eqn:H; [discriminate|].
  intros _. rewrite (float_raises _ _ H). reflexivity.
Qed.

Lemma is_int_false s : is_int s = false -> int s = Raise ValueError.
Proof.
  unfold is_int. destruct (int s) as [x|e] eqn:H; [discriminate|].
  intros _. rewrite (int_raises _ _ H). reflexivity.
Qed.

Ltac use_known :=
  repeat match goal with
         | H : float ?s = _, H' : float ?s = _ |- _ =>
             rewrite H in H'; discriminate H'
         | H : int ?s = _, H' : int ?s = _ |- _ =>
             rewrite H in H'; discriminate H'
         end.

(** The class of the exception a built-in raised, the fact kept. *)
Ltac known_class :=
  match goal with
  | H : float _ = Raise ?e |- _ => is_var e; pose proof (float_raises _ _ H) as ->
  | H : int _ = Raise ?e |- _ => is_var e; pose proof (int_raises _ _ H) as ->
  | H : getitem _ _ = Raise ?e |- _ =>
      is_var e; pose proof (getitem_raises _ _ _ _ H) as ->
  | H : snd (_run_remote_command _ _ _) = Raise ?e |- _ =>
      is_var e; pose proof (run_remote_command_interrupt _ _ _ _ H) as ->
  | |- context [exn_eqb ?a ?b] =>
      let v := eval cbv in (exn_eqb a b) in
      lazymatch v with
      | true => change (exn_eqb a b) with true
      | false => change (exn_eqb a b) with false
      end
  | |- context [orb ?a ?b] =>
      let v := eval cbv in (orb a b) in
      lazymatch v with
      | true => change (orb a b) with true
      | false => change (orb a b) with false
      end
  end.

Ltac use_facts :=
  repeat match goal with
         | H : float ?s = _ |- context [float ?s] => rewrite H
         | H : int ?s = _ |- context [int ?s] => rewrite H
         | H : getitem ?l ?i = _ |- context [getitem ?l ?i] => rewrite H
         | H : negb ?b = _ |- context [negb ?b] => rewrite H
         end.

(** A leaf of the run: the record is known, the field is computed. *)
Ltac field_leaf :=
  intros;
  try discriminate;
  repeat match goal with
         | H : Ok _ = Ok _ |- _ => apply Ok_inj in H; subst
         end;
  eexists; (split; [reflexivity|]);
  cbv beta iota delta [cpu_field process_field];
  repeat match goal with
         | |- context [String.eqb ?a ?b] =>
             let v := eval vm_compute in (String.eqb a b) in
             change (String.eqb a b) with v
         end;
  cbv beta iota;
  try match goal with
      | H : context [firstn 3 (split ?t)] |- _ =>
          remember (firstn 3 (split t)) as loads eqn:Hloads in *;
          destruct loads as [|l0 [|l1 [|l2 rest]]];
          cbn [getitem nth_error] in *; try discriminate;
          repeat match goal with
                 | H : Ok _ = Ok _ |- _ => apply Ok_inj in H; subst
                 end
      end;
  use_facts; reflexivity.

Lemma cpu_fields_by_probe self w metrics command name :
  snd (get_cpu_metrics self w) = Ok metrics ->
  In ("cpu_metrics", command, name) probes ->
  exists out,
    snd (_run_remote_command self w command) = Ok out /\
    get name metrics = cpu_field name out.
Proof.
  intros Hm Hin. revert metrics Hm.
  by_probe Hin; unfold get_cpu_metrics; cbv zeta;
    repeat first [known_class | exec_step]; field_leaf.
Qed.

Lemma process_fields_by_probe self w metrics command name :
  snd (get_process_metrics self w) = Ok metrics ->
  In ("process_metrics", command, name) probes ->
  exists out,
    snd (_run_remote_command self w command) = Ok out /\
    get name metrics = process_field name out.
Proof.
  intros Hm Hin. revert metrics Hm.
  by_probe Hin; unfold get_process_metrics; cbv zeta;
    repeat first [known_class | exec_step]; field_leaf.
Qed.

(** X5.  Each field of the records [get_cpu_metrics] and
    [get_process_metrics] return is decided by the output of its own
    probe alone: it is what [cpu_field] and [process_field] make of that
    output, whatever the other probes print.  So the casts the two
    methods guard cost one field each and no other: text that [float]
    rejects from the cpu-usage or the temperature probe, text without an
    equals sign or with a non-integer after it from the frequency probe,
    and text that [int] rejects from the process count leave that field
    out of the record returned; and when the load-average probe returns
    nothing, [get_cpu_metrics] raises nothing but an interrupt, whatever
    the other three probes print. *)
Theorem guarded_casts_cost_one_field self w :
  (forall metrics command name,
     snd (get_cpu_metrics self w) = Ok metrics ->
     In ("cpu_metrics", command, name) probes ->
     exists out,
       snd (_run_remote_command self w command) = Ok out /\
       get name metrics = cpu_field name out) /\
  (forall metrics command name,
     snd (get_process_metrics self w) = Ok metrics ->
     In ("process_metrics", command, name) probes ->
     exists out,
       snd (_run_remote_command self w command) = Ok out /\
       get name metrics = process_field name out) /\
  (forall text metrics,
     snd (_run_remote_command self w
            "top -bn1 | grep 'Cpu(s)' | awk '{print $2}' | cut -d'%' -f1")
       = Ok (Some text) ->
     is_float text = false ->
     snd (get_cpu_metrics self w) = Ok metrics ->
     get "cpu_usage_percent" metrics = None) /\
  (forall text metrics,
     snd (_run_remote_command self w "vcgencmd measure_temp") = Ok (Some text) ->
     is_float (replace "'C" "" (replace "temp=" "" text)) = false ->
     snd (get_cpu_metrics self w) = Ok metrics ->
     get "cpu_temperature_c" metrics = None) /\
  (forall text metrics,
     snd (_run_remote_command self w "vcgencmd measure_clock arm")
       = Ok (Some text) ->
     count_char "=" text = 0%nat \/
     is_int (nth 1 (split_on "=" text) "") = false ->
     snd (get_cpu_metrics self w) = Ok metrics ->
     get "cpu_frequency_hz" metrics = None) /\
  (forall text metrics,
     snd (_run_remote_command self w "ps aux | wc -l") = Ok (Some text) ->
     is_int text = false ->
     snd (get_process_metrics self w) = Ok metrics ->
     get "total_processes" metrics = None) /\
  (forall e,
     snd (_run_remote_command self w "cat /proc/loadavg") = Ok None ->
     snd (get_cpu_metrics self w) = Raise e ->
     e = KeyboardInterrupt).
Proof.
  split; [|split; [|split; [|split; [|split; [|split]]]]].
  - intros metrics command name. apply cpu_fields_by_probe.
  - intros metrics command name. apply process_fields_by_probe.
  - intros text metrics Hprobe Hbad. apply is_float_false in Hbad.
    revert metrics. destruct text as [|c text];
      unfold get_cpu_metrics; cbv zeta; run; exec_done.
  - intros text metrics Hprobe Hbad. apply is_float_false in Hbad.
    revert metrics. destruct text as [|c text];
      unfold get_cpu_metrics; cbv zeta; run; exec_done.
  - intros text metrics Hprobe Hbad. revert metrics.
    destruct text as [|c text];
      unfold get_cpu_metrics; cbv zeta; run; exec_done;
      exfalso;
      match goal with
      | H : getitem (split_on _ _) _ = Ok _ |- _ =>
          apply getitem_ok in H; destruct H as [Hlt Hnth];
          rewrite length_split_on in Hlt;
          destruct Hbad as [Hbad|Hbad]; [lia|];
          rewrite (nth_error_nth _ _ "" Hnth) in Hbad;
          apply is_int_false in Hbad; use_known
      end.
  - intros text metrics Hprobe Hbad. apply is_int_false in Hbad.
    revert metrics. destruct text as [|c text];
      unfold get_process_metrics; cbv zeta; run; exec_done; use_known.
  - intros e Hprobe. unfold get_cpu_metrics. cbv zeta. run; intros;
      try discriminate;
      match goal with
      | H : Raise _ = Raise _ |- _ => apply Raise_inj in H; subst
      end; reflexivity.
Qed.

(** X5 at the target whose cpu-usage probe prints [n/a]: that field is
    missing, the temperature and the frequency are there. *)
Lemma guarded_cast_of_garbled_cpu_usage :
  match snd (get_cpu_metrics pi garbled_cpu_usage) with
  | Ok metrics =>
      get "cpu_usage_percent" metrics = None /\
      get "cpu_temperature_c" metrics = Some (VFloat 65) /\
      get "cpu_frequency_hz" metrics = Some (VInt 1500000000)
  | Raise _ => False
  end.
Proof.
  destruct (snd (get_cpu_metrics pi garbled_cpu_usage)) as [metrics|e] eqn:Hm;
    [|vm_compute in Hm; discriminate].
  destruct (guarded_casts_cost_one_field pi garbled_cpu_usage)
    as (Hfields & _ & Husage & _).
  split; [apply (Husage "n/a" metrics); [reflexivity | reflexivity | exact Hm]|].
  split.
  - destruct (Hfields metrics "vcgencmd measure_temp" "cpu_temperature_c" Hm)
      as (out & Hout & ->); [simpl; tauto|].
    vm_compute in Hout. apply Ok_inj in Hout. subst out. reflexivity.
  - destruct (Hfields metrics "vcgencmd measure_clock arm" "cpu_frequency_hz" Hm)
      as (out & Hout & ->); [simpl; tauto|].
    vm_compute in Hout. apply Ok_inj in Hout. subst out. reflexivity.
Defined.

(** X6.  [get_disk_metrics], [get_network_metrics], [get_process_metrics]
    and [get_log_errors] raise nothing but an interrupt, whatever their
    probes print: no output of theirs can abort a snapshot. *)
Theorem four_categories_raise_only_interrupts self w :
  match snd (get_disk_metrics self w) with
  | Ok _ => True | Raise e => e = KeyboardInterrupt
  end /\
  match snd (get_network_metrics self w) with
  | Ok _ => True | Raise e => e = KeyboardInterrupt
  end /\
  match snd (get_process_metrics self w) with
  | Ok _ => True | Raise e => e = KeyboardInterrupt
  end /\
  match snd (get_log_errors self w) with
  | Ok _ => True | Raise e => e = KeyboardInterrupt
  end.
Proof.
  repeat split.
  - destruct (snd (get_disk_metrics self w)) as [m|e] eqn:H; [exact I|].
    revert H. unfold get_disk_metrics. cbv zeta. run; intros;
      try discriminate;
      match goal with
      | H : Raise _ = Raise _ |- _ => apply Raise_inj in H; subst
      end; reflexivity.
  - destruct (snd (get_network_metrics self w)) as [m|e] eqn:H; [exact I|].
    revert H. unfold get_network_metrics. cbv zeta. run; intros;
      try discriminate;
      match goal with
      | H : Raise _ = Raise _ |- _ => apply Raise_inj in H; subst
      end; reflexivity.
  - destruct (snd (get_process_metrics self w)) as [m|e] eqn:H; [exact I|].
    revert H. unfold get_process_metrics. cbv zeta. run; intros;
      try discriminate;
      match goal with
      | H : Raise _ = Raise _ |- _ => apply Raise_inj in H; subst
      end; reflexivity.
  - destruct (snd (get_log_errors self w)) as [m|e] eqn:H; [exact I|].
    revert H. unfold get_log_errors. cbv zeta. run; intros;
      try discriminate;
      match goal with
      | H : Raise _ = Raise _ |- _ => apply Raise_inj in H; subst
      end; reflexivity.
Qed.

(* ================================================================= *)
(** ** Disks, network and logs *)

Lemma fold_left_invariant (A B : Type) (f : A -> B -> A) (P : A -> Prop)
  (xs : list B) :
  (forall acc x, P acc -> P (f acc x)) ->
  forall a, P a -> P (fold_left f xs a).
Proof.
  intros Hstep. induction xs as [|x xs IH]; simpl; auto.
Qed.

Lemma fold_left_grows (A B : Type) (f : list A -> B -> list A) (xs : list B) :
  (forall acc x, (List.length (f acc x) <= S (List.length acc))%nat) ->
  forall a,
    (List.length (fold_left f xs a) <= List.length a + List.length xs)%nat.
Proof.
  intros Hstep. induction xs as [|x xs IH]; simpl; intros a; [lia|].
  specialize (IH (f a x)). specialize (Hstep a x). lia.
Qed.

Lemma concat_split_on sep s :
  String.concat (String sep EmptyString) (split_on sep s) = s.
Proof.
  induction s as [|c s IH]; [reflexivity|].
  pose proof (split_on_not_nil sep s) as Hne.
  simpl. destruct (Ascii.eqb_spec c sep) as [->|Hc].
  - destruct (split_on sep s) as [|t ts]; [contradiction|].
    change (String.concat (String sep "") ("" :: t :: ts))
      with (String sep (String.concat (String sep "") (t :: ts))).
    rewrite IH. reflexivity.
  - destruct (split_on sep s) as [|t ts]; [contradiction|].
    destruct ts as [|t' ts]; simpl in *; rewrite <- IH; reflexivity.
Qed.

(** X7.  When [df -h] prints something, [disk_usage] is a list of
    records of six text fields whose device lies under [/dev/] and whose
    usage does not end in a percent sign; the list is never longer than the
    number of lines after the header. *)
Theorem disk_records_are_devices self w text metrics :
  snd (_run_remote_command self w "df -h") = Ok (Some text) ->
  text <> "" ->
  snd (get_disk_metrics self w) = Ok metrics ->
  exists disks,
    get "disk_usage" metrics = Some (VList disks) /\
    forallb is_disk_record disks = true /\
    (List.length disks <= count_char nl text)%nat.
Proof.
  intros Hprobe Hne. revert metrics.
  destruct text as [|c text]; [contradiction|].
  assert (Hlen : List.length (tl (split_on nl (String c text)))
                 = count_char nl (String c text)).
  { pose proof (length_split_on nl (String c text)) as H.
    destruct (split_on nl (String c text)); simpl in *; lia. }
  unfold get_disk_metrics. cbv zeta. run; exec_done;
    (eexists; split; [reflexivity|]);
    rewrite <- Hlen;
    match goal with
    | |- context [fold_left ?f ?l ?a] => set (step := f)
    end;
    (split;
     [ apply (fold_left_invariant _ _ step
                (fun acc => forallb is_disk_record acc = true));
       [|reflexivity];
       intros acc line Hacc; unfold step;
       destruct (split line) as [|p0 [|p1 [|p2 [|p3 [|p4 [|p5 ps]]]]]];
       try exact Hacc;
       destruct (startswith "/dev/" p0) eqn:Hdev; [|exact Hacc];
       rewrite forallb_app, Hacc; cbn [forallb is_disk_record andb];
       rewrite Hdev; unfold rstrip_char;
       rewrite rstrip_by_idempotent, String.eqb_refl; reflexivity
     | apply (fold_left_grows _ _ step);
       intros acc line; unfold step;
       destruct (split line) as [|p0 [|p1 [|p2 [|p3 [|p4 [|p5 ps]]]]]];
       try lia;
       destruct (startswith "/dev/" p0); [|lia];
       rewrite length_app; simpl; lia ]).
Qed.

(** X7 at the healthy target: one device among two lines. *)
Lemma disk_records_when_healthy :
  match snd (get_disk_metrics pi healthy_world) with
  | Ok metrics =>
      exists disks,
        get "disk_usage" metrics = Some (VList disks) /\
        forallb is_disk_record disks = true /\
        (List.length disks <= 2)%nat
  | Raise _ => False
  end.
Proof.
  destruct (snd (get_disk_metrics pi healthy_world)) as [metrics|e] eqn:Hm;
    [|vm_compute in Hm; discriminate].
  apply (disk_records_are_devices pi healthy_world
           (strip (lines ["Filesystem      Size  Used Avail Use% Mounted on";
                          "/dev/root        29G  5.1G   23G  19% /";
                          "tmpfs           1.9G     0  1.9G   0% /dev/shm"]))
           metrics);
    [reflexivity | discriminate | exact Hm].
Defined.

(** X8.  The record [get_network_metrics] returns always has the
    connectivity field, a boolean that is true only when the ping probe
    returned text containing [ping successful] or [3 received]; and when
    [ss -tuln] prints something, [active_connections] is the number of
    line breaks in it, so never negative. *)
Theorem connectivity_is_always_reported self w metrics :
  snd (get_network_metrics self w) = Ok metrics ->
  (exists b,
     get "internet_connectivity" metrics = Some (VBool b) /\
     (b = true ->
      exists text,
        snd (_run_remote_command self w ping) = Ok (Some text) /\
        (contains "ping successful" text || contains "3 received" text) = true)) /\
  (forall text,
     snd (_run_remote_command self w "ss -tuln") = Ok (Some text) ->
     text <> "" ->
     get "active_connections" metrics
     = Some (VInt (Z.of_nat (count_char nl text)))).
Proof.
  intros Hm. split.
  - revert metrics Hm. unfold ping.
    destruct (snd (_run_remote_command self w "ping -c 3 8.8.8.8"))
      as [[text|]|e] eqn:Hping;
      [destruct text as [|c text]| |];
      unfold get_network_metrics; cbv zeta; exec;
      eexists; (split; [reflexivity|]); intros Hb; try discriminate;
      eexists; (split; [reflexivity | exact Hb]).
  - intros text Hprobe Hne. revert metrics Hm.
    destruct text as [|c text]; [contradiction|].
    assert (Hcount : len (split_on nl (String c text)) - 1
                     = Z.of_nat (count_char nl (String c text))).
    { unfold len. rewrite length_split_on. lia. }
    unfold get_network_metrics. cbv zeta. run; exec_done;
      rewrite <- Hcount; reflexivity.
Qed.

(** X8 at the healthy target. *)
Lemma connectivity_when_healthy :
  match snd (get_network_metrics pi healthy_world) with
  | Ok metrics =>
      get "internet_connectivity" metrics = Some (VBool true) /\
      get "active_connections" metrics = Some (VInt 1)
  | Raise _ => False
  end.
Proof.
  destruct (snd (get_network_metrics pi healthy_world)) as [metrics|e] eqn:Hm;
    [|vm_compute in Hm; discriminate].
  destruct (connectivity_is_always_reported pi healthy_world metrics Hm)
    as [_ H2].
  split.
  - vm_compute in Hm. apply Ok_inj in Hm. subst metrics. reflexivity.
  - apply (H2 (lines ["Netid State  Recv-Q Send-Q Local Address:Port";
                      "tcp   LISTEN 0      128    0.0.0.0:22"]));
      [reflexivity | discriminate].
Defined.

(** X9.  A log-error field is never the empty list: when the probe
    prints something the field holds its lines, one more than it has
    line breaks, which joined by line breaks give the output back; when
    it prints nothing the field is absent. *)
Theorem log_error_lines_keep_the_output self w metrics command name :
  In (command, name)
    [("dmesg | grep -i error | tail -10", "recent_kernel_errors");
     ("journalctl --since='1 hour ago' -p err --no-pager | tail -20",
      "recent_syslog_errors")] ->
  snd (get_log_errors self w) = Ok metrics ->
  get name metrics <> Some (VList []) /\
  (forall text,
     snd (_run_remote_command self w command) = Ok (Some text) ->
     text <> "" ->
     exists lines,
       get name metrics = Some (VList (List.map VStr lines)) /\
       String.concat (String nl EmptyString) lines = text /\
       List.length lines = S (count_char nl text)).
Proof.
  intros Hin Hm.
  assert (Hnil : forall s, List.map VStr (split_on nl s) <> []).
  { intros s H. apply (split_on_not_nil nl s).
    destruct (split_on nl s); [reflexivity | discriminate]. }
  destruct Hin as [Hin|[Hin|[]]]; inversion Hin; subst; clear Hin; split.
  - revert metrics Hm. unfold get_log_errors. cbv zeta. run; exec_done;
      cbn [get setitem String.eqb Ascii.eqb Bool.eqb];
      try discriminate; intros H;
      apply (f_equal (fun o => match o with
                               | Some (VList xs) => xs
                               | _ => [VStr ""]
                               end)) in H;
      exact (Hnil _ H).
  - intros text Hprobe Hne. revert metrics Hm.
    destruct text as [|c text]; [contradiction|].
    unfold get_log_errors. cbv zeta. run; exec_done;
      exists (split_on nl (String c text));
      (split; [reflexivity|]);
      (split; [apply concat_split_on | apply length_split_on]).
  - revert metrics Hm. unfold get_log_errors. cbv zeta. run; exec_done;
      cbn [get setitem String.eqb Ascii.eqb Bool.eqb];
      try discriminate; intros H;
      apply (f_equal (fun o => match o with
                               | Some (VList xs) => xs
                               | _ => [VStr ""]
                               end)) in H;
      exact (Hnil _ H).
  - intros text Hprobe Hne. revert metrics Hm.
    destruct text as [|c text]; [contradiction|].
    unfold get_log_errors. cbv zeta. run; exec_done;
      exists (split_on nl (String c text));
      (split; [reflexivity|]);
      (split; [apply concat_split_on | apply length_split_on]).
Qed.

(** X9 at a target whose kernel log holds two errors. *)
Lemma log_error_lines_of_two_errors :
  match snd (get_log_errors pi two_kernel_errors) with
  | Ok metrics =>
      exists lines,
        get "recent_kernel_errors" metrics = Some (VList (List.map VStr lines)) /\
        List.length lines = 2%nat
  | Raise _ => False
  end.
Proof.
  destruct (snd (get_log_errors pi two_kernel_errors)) as [metrics|e] eqn:Hm;
    [|vm_compute in Hm; discriminate].
  destruct (log_error_lines_keep_the_output pi two_kernel_errors metrics
              "dmesg | grep -i error | tail -10" "recent_kernel_errors")
    as [_ H]; [simpl; auto | exact Hm |].
  destruct (H (lines ["[   12.1] mmc0: error -110";
                      "[   99.7] EXT4-fs error (device mmcblk0p2)"]))
    as (ls & Hget & _ & Hlen); [reflexivity | discriminate |].
  exists ls. split; [exact Hget | exact Hlen].
Defined.

(* ================================================================= *)
(** ** Memory and swap records *)

(** X10.  When the second line of [free -m] has at most six columns, the
    memory block takes [available_mb] from the free column; and a total
    of zero makes it raise [ZeroDivisionError] instead of returning a
    record. *)
Theorem memory_record_without_available_column
  self w text header line rest f0 t u f more total used free metrics :
  snd (_run_remote_command self w "free -m") = Ok (Some text) ->
  text <> "" ->
  split_on nl text = header :: line :: rest ->
  split line = f0 :: t :: u :: f :: more ->
  (List.length more <= 2)%nat ->
  int t = Ok total -> int u = Ok used -> int f = Ok free ->
  snd (memory_usage self w metrics) =
    match int_truediv used total with
    | Ok ratio =>
        Ok (setitem "memory"
              (VDict [("total_mb", VInt total);
                      ("used_mb", VInt used);
                      ("free_mb", VInt free);
                      ("available_mb", VInt free);
                      ("usage_percent", VFloat (PrimFloat.mul ratio 100))])
              metrics)
    | Raise e => Raise e
    end /\
  (total = 0 -> snd (memory_usage self w metrics) = Raise ZeroDivisionError).
Proof.
  intros Hprobe Hne Hlines Hfields Hmore Ht Hu Hf.
  assert (Hge : (len (header :: line :: rest) >=? 2) = true).
  { change 2 with (Z.of_nat 2). rewrite len_ge. reflexivity. }
  assert (Hgt : (len (f0 :: t :: u :: f :: more) >? 6) = false).
  { unfold len. simpl List.length. rewrite Z.gtb_ltb. apply Z.ltb_ge. lia. }
  assert (Heq : snd (memory_usage self w metrics) =
                match int_truediv used total with
                | Ok ratio =>
                    Ok (setitem "memory"
                          (VDict [("total_mb", VInt total);
                                  ("used_mb", VInt used);
                                  ("free_mb", VInt free);
                                  ("available_mb", VInt free);
                                  ("usage_percent",
                                   VFloat (PrimFloat.mul ratio 100))])
                          metrics)
                | Raise e => Raise e
                end).
  { destruct text as [|c text]; [contradiction|].
    unfold memory_usage. rewrite snd_bind, Hprobe. cbv beta iota zeta.
    rewrite Hlines, Hge.
    repeat first
      [ rewrite snd_bind
      | progress cbn [snd lift ret getitem nth_error]
      | rewrite Hfields | rewrite Hgt | rewrite Ht | rewrite Hu | rewrite Hf
      | progress cbv beta iota zeta ].
    destruct (int_truediv used total); reflexivity. }
  split; [exact Heq|].
  intros ->. rewrite Heq. reflexivity.
Qed.

(** X10 at a [free -m] of four columns. *)
Lemma memory_record_of_four_columns :
  match snd (memory_usage pi free_four_columns []) with
  | Ok metrics =>
      field [("memory_metrics", VDict metrics)] "memory_metrics" "memory" =
      Some (VDict [("total_mb", VInt 1024);
                   ("used_mb", VInt 512);
                   ("free_mb", VInt 512);
                   ("available_mb", VInt 512);
                   ("usage_percent", VFloat 50)])
  | Raise _ => False
  end.
Proof.
  destruct (memory_record_without_available_column pi free_four_columns
              (strip (lines ["       total   used   free";
                             "Mem:    1024    512    512"]))
              "total   used   free" "Mem:    1024    512    512" []
              "Mem:" "1024" "512" "512" [] 1024 512 512 [])
    as [H _];
    [ vm_compute; reflexivity | vm_compute; discriminate
    | vm_compute; reflexivity | vm_compute; reflexivity | simpl; lia
    | vm_compute; reflexivity | vm_compute; reflexivity
    | vm_compute; reflexivity | ].
  rewrite H. vm_compute. reflexivity.
Defined.

(** X11.  From a first line of five or more fields the swap block takes
    the second field as [size], the third as [used], and the fifth,
    without trailing percent signs, as the float [usage_percent]; when
    that field is not a number the [ValueError] leaves the block. *)
Theorem swap_record_takes_three_columns
  self w text f0 size used f3 pct more metrics :
  snd (_run_remote_command self w "swapon --show --noheadings")
    = Ok (Some text) ->
  swap_fields text = f0 :: size :: used :: f3 :: pct :: more ->
  swap_usage self w metrics =
  ([], match float (rstrip_char "%" pct) with
       | Ok x =>
           Ok (setitem "swap"
                 (VDict [("size", VStr size);
                         ("used", VStr used);
                         ("usage_percent", VFloat x)])
                 metrics)
       | Raise e => Raise e
       end).
Proof.
  intros Hprobe Hfields.
  destruct (run_remote_command_trimmed _ _ _ _ Hprobe) as [_ Hevs].
  unfold swap_usage.
  rewrite (pair_eta _ _ (_run_remote_command _ _ _)), Hprobe, Hevs.
  unfold bind, swap_fields in *.
  destruct text as [|c s]; [discriminate|].
  destruct (split_on nl (strip (String c s))) as [|[|c' first] rest];
    try discriminate.
  simpl hd in Hfields. rewrite Hfields.
  assert (Hge : (len (f0 :: size :: used :: f3 :: pct :: more) >=? 4) = true).
  { change 4 with (Z.of_nat 4). rewrite len_ge. reflexivity. }
  rewrite Hge. cbn [lift getitem nth_error ret app].
  destruct (float (rstrip_char "%" pct)); reflexivity.
Qed.

(** X11 at the healthy target, whose [swapon] line is
    [/var/swap file 100M 0B -2]. *)
Lemma swap_record_when_healthy :
  snd (swap_usage pi healthy_world []) =
  Ok [("swap", VDict [("size", VStr "file");
                      ("used", VStr "100M");
                      ("usage_percent", VFloat (-2))])].
Proof.
  rewrite (swap_record_takes_three_columns pi healthy_world
             "/var/swap file 100M 0B -2"
             "/var/swap" "file" "100M" "0B" "-2" [] []);
    reflexivity.
Defined.

(* ================================================================= *)
(** ** The document and the cycle *)

(** X12.  Every snapshot [collect_all_metrics] returns has the same nine
    keys in the same order: the clock reading, the host name, and the
    seven categories, each a mapping. *)
Theorem snapshot_has_nine_keys self w snapshot :
  snd (collect_all_metrics self w) = Ok snapshot ->
  keys snapshot = snapshot_keys /\
  get "timestamp" snapshot = Some (VStr (now_isoformat w)) /\
  get "hostname" snapshot = Some (VStr (hostname self)) /\
  (forall category,
     In category categories ->
     exists d, get category snapshot = Some (VDict d)).
Proof.
  intros Hc.
  destruct (collect_all_metrics_inv _ _ _ Hc)
    as (sys & cpu & mem & disk & net & proc & logs
        & _ & _ & _ & _ & _ & _ & _ & ->).
  repeat split.
  intros category Hin. simpl in Hin.
  repeat (destruct Hin as [<-|Hin]; [eexists; reflexivity|]).
  contradiction.
Qed.

(** X12 at a target that cannot be reached. *)
Lemma snapshot_keys_when_unreachable :
  match snd (collect_all_metrics pi unreachable) with
  | Ok snapshot => keys snapshot = snapshot_keys
  | Raise _ => False
  end.
Proof.
  destruct (snd (collect_all_metrics pi unreachable)) as [snapshot|e] eqn:Hc;
    [|vm_compute in Hc; discriminate].
  exact (proj1 (snapshot_has_nine_keys pi unreachable snapshot Hc)).
Defined.




(* ================================================================= *)
(** ** More on the scheduling loop *)

Lemma healthy_world_no_interrupt : no_interrupt healthy_world.
Proof. apply world_of_no_interrupt. intros command. apply healthy_never_raises. Qed.

(** X14.  With a negative interval [monitor_continuous] runs exactly one
    cycle: the sleep after it raises [ValueError], the handler logs it
    as an unexpected error and sleeps again, and that second
    [ValueError] leaves the method, however long the loop is watched. *)
Theorem negative_interval_runs_one_cycle self interval worlds n :
  interval < 0 ->
  no_interrupt (worlds 0%nat) ->
  monitor_continuous self interval worlds (S n) =
  ((Logged INFO (StartingContinuousMonitoring interval)
    :: fst (monitor_once self (worlds 0%nat))
    ++ retry_notice (snd (monitor_once self (worlds 0%nat)))
    ++ [Logged ERROR (UnexpectedError ValueError)])%list,
   Escaped ValueError).
Proof.
  intros Hi Hw.
  destruct (monitor_once_returns self (worlds 0%nat) Hw) as [b Hb].
  unfold monitor_continuous. cbn [loop].
  unfold loop_iteration, time_sleep.
  destruct (monitor_once self (worlds 0%nat)) as [evs r]. simpl in Hb. subst r.
  destruct (Z.ltb_spec interval 0); [|lia].
  destruct b; cbn; rewrite <- ?app_assoc; reflexivity.
Qed.

(** X14 at the healthy target with an interval of minus five seconds,
    watched for ten iterations. *)
Lemma negative_interval_when_healthy :
  snd (monitor_continuous pi (-5) (fun _ => healthy_world) 10)
  = Escaped ValueError.
Proof.
  rewrite (negative_interval_runs_one_cycle pi (-5) (fun _ => healthy_world) 9);
    [reflexivity | lia | apply healthy_world_no_interrupt].
Defined.

(** X15.  When the sleep after a cycle fails with an exception of class
    [Exception], the loop logs it as an unexpected error and sleeps once
    more: if that sleep completes the loop goes on, and whatever it
    raises, an interrupt included, leaves [monitor_continuous]
    uncaught. *)
Theorem failed_sleep_is_retried_once self w interval e :
  0 <= interval ->
  no_interrupt w ->
  sleep_in_try w = Some e ->
  is_Exception e = true ->
  loop_iteration self w interval =
  match sleep_in_handler w with
  | None =>
      ((fst (monitor_once self w) ++ retry_notice (snd (monitor_once self w))
        ++ [Logged ERROR (UnexpectedError e); Slept interval])%list,
       Ok true)
  | Some e' =>
      ((fst (monitor_once self w) ++ retry_notice (snd (monitor_once self w))
        ++ [Logged ERROR (UnexpectedError e)])%list,
       Raise e')
  end.
Proof.
  intros Hi Hw Hsleep He.
  destruct (monitor_once_returns self w Hw) as [b Hb].
  unfold loop_iteration, time_sleep.
  destruct (monitor_once self w) as [evs r]. simpl in Hb. subst r.
  rewrite Hsleep. destruct (Z.ltb_spec interval 0); [lia|].
  destruct (sleep_in_handler w) as [e'|];
    destruct b; destruct e; try discriminate; cbn;
    rewrite <- ?app_assoc; reflexivity.
Qed.

(** X15 at the healthy target when the first sleep fails. *)
Lemma failed_sleep_when_healthy :
  snd (loop_iteration pi sleep_fails 300) = Ok true.
Proof.
  rewrite (failed_sleep_is_retried_once pi sleep_fails 300 OSError);
    [reflexivity | lia | | reflexivity | reflexivity].
  split; [intros argv; apply healthy_never_raises | discriminate].
Defined.

(** Iterating for [n + k] rounds is iterating for [n] and, while the loop
    is still running, for [k] more. *)
Lemma loop_extends self interval worlds n k :
  forall i,
    loop self interval worlds i (n + k) =
    match snd (loop self interval worlds i n) with
    | Looping =>
        ((fst (loop self interval worlds i n)
          ++ fst (loop self interval worlds (i + n) k))%list,
         snd (loop self interval worlds (i + n) k))
    | _ => loop self interval worlds i n
    end.
Proof.
  induction n as [|n IH]; intros i.
  - cbn [loop Nat.add fst snd app]. rewrite Nat.add_0_r. apply pair_eta.
  - cbn [loop Nat.add].
    destruct (loop_iteration self (worlds i) interval) as [evs [[|]|e]];
      try reflexivity.
    rewrite IH.
    replace (S i + n)%nat with (i + S n)%nat by lia.
    destruct (loop self interval worlds (S i) n) as [evs' st].
    destruct st; cbn [fst snd]; try reflexivity.
    rewrite app_assoc. reflexivity.
Qed.

(* ================================================================= *)
(** ** The snapshot file *)

Lemma append_cancel_l (a x y : string) : a ++ x = a ++ y -> x = y.
Proof.
  induction a as [|c a IH]; simpl; [auto|]. intros [= H]. exact (IH H).
Qed.

Lemma length_append (x y : string) :
  String.length (x ++ y) = (String.length x + String.length y)%nat.
Proof. induction x as [|c x IH]; simpl; [reflexivity | rewrite IH; reflexivity]. Qed.

Lemma append_cancel_r (b x y : string) : x ++ b = y ++ b -> x = y.
Proof.
  revert y. induction x as [|c x IH]; intros [|d y] H.
  - reflexivity.
  - exfalso. apply (f_equal String.length) in H.
    simpl in H. rewrite length_append in H. lia.
  - exfalso. apply (f_equal String.length) in H.
    simpl in H. rewrite length_append in H. lia.
  - simpl in H. injection H as -> H. rewrite (IH _ H). reflexivity.
Qed.

Lemma append_associative (a b c : string) : a ++ (b ++ c) = (a ++ b) ++ c.
Proof. induction a as [|x a IH]; simpl; [|rewrite IH]; reflexivity. Qed.

Lemma count_char_append c (a b : string) :
  count_char c (a ++ b) = (count_char c a + count_char c b)%nat.
Proof. induction a as [|x a IH]; simpl; [|rewrite IH]; lia. Qed.

Lemma split_on_no_separator sep s :
  count_char sep s = 0%nat -> split_on sep s = [s].
Proof.
  induction s as [|c s IH]; simpl; [reflexivity|].
  destruct (Ascii.eqb c sep); [discriminate|].
  intros H. rewrite (IH H). reflexivity.
Qed.

(** Text without a separator, appended, lengthens the last component. *)
Lemma split_on_append sep a b :
  count_char sep b = 0%nat ->
  split_on sep (a ++ b) =
  (removelast (split_on sep a)
   ++ [(last (split_on sep a) "" ++ b)%string])%list.
Proof.
  intros Hb. induction a as [|c a IH].
  - simpl. apply split_on_no_separator, Hb.
  - pose proof (split_on_not_nil sep a) as Hne.
    cbn [append split_on]. rewrite IH.
    destruct (split_on sep a) as [|t ts]; [contradiction|].
    destruct (Ascii.eqb c sep).
    + reflexivity.
    + destruct ts as [|t' ts]; reflexivity.
Qed.

Lemma concat_snoc sep (l : list string) x :
  l <> [] ->
  String.concat sep (l ++ [x]) = String.concat sep l ++ sep ++ x.
Proof.
  induction l as [|y l IH]; [contradiction|]. intros _.
  destruct l as [|z l].
  - reflexivity.
  - change (String.concat sep ((y :: z :: l) ++ [x]))
      with (y ++ sep ++ String.concat sep ((z :: l) ++ [x])).
    rewrite IH by discriminate.
    change (String.concat sep (y :: z :: l))
      with (y ++ sep ++ String.concat sep (z :: l)).
    rewrite <- !append_associative. reflexivity.
Qed.

(** The file name is relative, so the path is the log directory and the
    parts of the name, joined by slashes. *)
Lemma snapshot_path_parts self w :
  snapshot_path self w =
  String.concat "/"
    ("rpi_logs"
     :: path_parts
          ("health_check_" ++ hostname self ++ "_" ++ now_strftime w ++ ".json")).
Proof. reflexivity. Qed.

Lemma long_component x ts :
  negb (is_empty (x ++ ts ++ ".json"))
  && negb (String.eqb (x ++ ts ++ ".json") ".") = true.
Proof.
  assert (Hlen : (5 <= String.length (x ++ ts ++ ".json"))%nat)
    by (rewrite !length_append; simpl; lia).
  destruct (x ++ ts ++ ".json") as [|c [|c' s]] eqn:E; simpl in Hlen; try lia.
  destruct c as [[] [] [] [] [] [] [] []]; reflexivity.
Qed.

(** The parts of the file name: those of the text before the clock
    reading, the last of which the clock reading and [.json] lengthen. *)
Lemma file_name_parts host ts :
  count_char "/" ts = 0%nat ->
  path_parts ("health_check_" ++ host ++ "_" ++ ts ++ ".json") =
  (filter (fun x => negb (is_empty x) && negb (String.eqb x "."))
     (removelast (split_on "/" ("health_check_" ++ host ++ "_")%string))
   ++ [(last (split_on "/" ("health_check_" ++ host ++ "_")) ""
        ++ ts ++ ".json")%string])%list.
Proof.
  intros Hts. unfold path_parts.
  replace ("health_check_" ++ host ++ "_" ++ ts ++ ".json")
    with (("health_check_" ++ host ++ "_") ++ ts ++ ".json")
    by (rewrite <- !append_associative; reflexivity).
  rewrite split_on_append
    by (rewrite count_char_append, Hts; reflexivity).
  rewrite filter_app. cbn [filter]. rewrite long_component. reflexivity.
Qed.

(** X16.  The snapshot file lies in the log directory, and its name is
    [health_check_<host>_<time>.json] whenever the host name holds no
    slash; [pathlib] drops empty components and [.] from a host name that
    does.  For clock readings without a slash, as the format
    [%Y%m%d_%H%M%S] gives them, two writes of one monitor go to the same
    path exactly when their clock readings are the same, whatever the
    host name. *)
Theorem snapshot_path_follows_the_clock
  self w1 w2 snapshot1 snapshot2 path1 doc1 path2 doc2 :
  count_char "/" (now_strftime w1) = 0%nat ->
  count_char "/" (now_strftime w2) = 0%nat ->
  In (Wrote path1 doc1) (fst (save_metrics self w1 snapshot1)) ->
  In (Wrote path2 doc2) (fst (save_metrics self w2 snapshot2)) ->
  (count_char "/" (hostname self) = 0%nat ->
   path1 = "rpi_logs/health_check_" ++ hostname self ++ "_"
           ++ now_strftime w1 ++ ".json") /\
  (path1 = path2 <-> now_strftime w1 = now_strftime w2).
Proof.
  intros Hts1 Hts2 H1 H2.
  destruct (save_metrics_events self w1 snapshot1) as [_ E1].
  destruct (save_metrics_events self w2 snapshot2) as [_ E2].
  destruct (E1 _ _ H1) as [-> _]. destruct (E2 _ _ H2) as [-> _].
  split.
  - intros Hhost. rewrite snapshot_path_parts. unfold path_parts.
    rewrite split_on_no_separator
      by (rewrite !count_char_append, Hhost, Hts1; reflexivity).
    reflexivity.
  - split.
    + rewrite !snapshot_path_parts, !file_name_parts by assumption.
      set (before := filter _ _).
      rewrite !app_comm_cons.
      rewrite !concat_snoc by discriminate.
      intros H.
      apply append_cancel_l, append_cancel_l, append_cancel_l in H.
      exact (append_cancel_r _ _ _ H).
    + unfold snapshot_path. intros ->. reflexivity.
Qed.

(** X16 at the healthy target and at the same target five minutes later;
    [lab//pi] for a host name gives [health_check_lab/pi_...]. *)
Lemma snapshot_path_when_healthy :
  (snapshot_path pi healthy_world =
   "rpi_logs/health_check_raspberrypi_20240501_100000.json" /\
   snapshot_path pi healthy_world <> snapshot_path pi healthy_later) /\
  snapshot_path slashed healthy_world =
  "rpi_logs/health_check_lab/pi_20240501_100000.json".
Proof.
  split; [|reflexivity].
  destruct (snapshot_path_follows_the_clock pi healthy_world healthy_later
              [] []
              (snapshot_path pi healthy_world) (VDict [])
              (snapshot_path pi healthy_later) (VDict []))
    as [Hname Hsame];
    try reflexivity; try (vm_compute; tauto).
  split; [apply Hname; reflexivity|].
  intros H. apply Hsame in H. discriminate H.
Defined.
